(** * MetOncoFit: the evaluation harness of [metoncofit/validator.py]

    A shallow embedding of the trial aggregator ([computeConfusionMatrix],
    [Summarize]), the diagnostics ([PearsonCorrelation]) and the ablation
    engine ([leave_one_feat_out], [leave_one_cell_out]) together with the
    properties their specification states about them.

    Conventions.
    - Python integers are [Z]; numpy [float64] values are [float64] below.
    - The collaborators that the module imports ([DataPreparation],
      [Classifier], scikit-learn, scipy, imbalanced-learn) are interfaces
      (type classes); every function is defined over arbitrary instances.
    - Calls that draw random numbers or may raise run in the monad [Py W],
      where [W] is the state of the world outside the function (random
      generators, files).
    - The functions are modelled as they read.  The module uses
      [train_test_split], [RandomForestClassifier], [RobustScaler] and
      [RandomOverSampler] without importing them, line 106 has an unbalanced
      parenthesis and line 232 is dedented; the model takes the names from
      scikit-learn and imbalanced-learn and the lines as the surrounding
      code means them.
    - What pandas, numpy and scipy do with the arguments that the code
      passes is part of the model where the outcome of a function depends
      on it: the axis of a Series, the value that [DataFrame.pop] returns,
      the pair that [pearsonr] returns, the truth value of an array, the
      regular expression of [str.contains]. *)

From Stdlib Require Import ZArith QArith Qabs Qround Qpower Lia Lqa.
From Stdlib Require Import String Ascii List Permutation.
From stdpp Require Import base list gmap strings.
Import ListNotations.

Set Default Proof Using "Type".

(* ===================================================================== *)
(** * Part I: the model                                                   *)
(* ===================================================================== *)

(** ** Python control: exceptions, state, [while] *)

Inductive exn : Type :=
| UnboundLocalError (name : string)   (* a local read before assignment *)
| NameError (name : string)           (* a global name that is not bound *)
| AttributeError (what : string)      (* an attribute the object lacks *)
| TypeError (what : string)           (* an operation the type lacks *)
| ValueError (what : string)          (* an argument pandas or numpy refuses *)
| re_error                            (* [re.compile] rejects a pattern *)
| LibraryError (what : string)        (* raised inside a collaborator *)
| OutOfFuel.                          (* the bound of a modelled loop ran out *)

Inductive result (A : Type) : Type :=
| Return (a : A)
| Raise (e : exn).
Arguments Return {A} a.
Arguments Raise {A} e.

Definition Py (W A : Type) : Type := W -> result A * W.

#[export] Instance Py_ret {W} : MRet (Py W) :=
  fun A a w => (Return a, w).

#[export] Instance Py_bind {W} : MBind (Py W) :=
  fun A B f m w =>
    match m w with
    | (Return a, w') => f a w'
    | (Raise e, w') => (Raise e, w')
    end.

Definition raise {W A} (e : exn) : Py W A := fun w => (Raise e, w).

(** Reading a local variable that may not have been assigned yet. *)
Definition read_local {W A} (name : string) (v : option A) : Py W A :=
  match v with
  | Some a => mret a
  | None => raise (UnboundLocalError name)
  end.

(** Reading a name that the function does not assign: a global of the
    module, which may or may not be bound. *)
Definition read_global {W A} (name : string) (v : option A) : Py W A :=
  match v with
  | Some a => mret a
  | None => raise (NameError name)
  end.

(** [while cond: body] over the loop's local variables [S]. *)
Fixpoint while {W S} (fuel : nat) (cond : S -> bool) (body : S -> Py W S)
    (s : S) : Py W S :=
  match fuel with
  | O => raise OutOfFuel
  | Datatypes.S fuel' =>
      if cond s then s' ← body s; while fuel' cond body s' else mret s
  end.

(** [for x in xs: body], threading the loop's local variables. *)
Fixpoint for_each {W S X} (xs : list X) (body : X -> S -> Py W S) (s : S)
    : Py W S :=
  match xs with
  | [] => mret s
  | x :: xs' => s' ← body x s; for_each xs' body s'
  end.

(** ** numpy float64

    A double is NaN, an infinity, or a finite value, kept as the rational it
    denotes.  Finite results of arithmetic are rounded to the nearest double
    (53-bit significand, ties to even).  The exponent range is not bounded and
    the two zeros are not told apart: the values computed below are counts,
    quotients of counts and the literals of the source, all normal doubles
    of either sign or a zero that comes from a count. *)

Inductive float64 : Type :=
| NaN
| PInf
| NInf
| Finite (q : Q).

(** Nearest integer, ties to even. *)
Definition half_even (y : Q) : Z :=
  let f := Qfloor y in
  match (y - inject_Z f ?= 1 # 2)%Q with
  | Lt => f
  | Gt => (f + 1)%Z
  | Eq => if Z.even f then f else (f + 1)%Z
  end.

(** For [0 < x]: the [e] with [2^e <= x < 2^(e+1)]. *)
Definition binade (x : Q) : Z :=
  let e0 := (Z.log2 (Qnum x) - Z.log2 (Zpos (Qden x)))%Z in
  if Qle_bool (2 ^ e0) x then e0 else (e0 - 1)%Z.

Definition round_pos (x : Q) : Q :=
  let e := binade x in
  (inject_Z (half_even (x * 2 ^ (52 - e))) * 2 ^ (e - 52))%Q.

Definition round_double (x : Q) : Q :=
  match Qnum x with
  | Z0 => 0%Q
  | Zpos _ => round_pos x
  | Zneg _ => (- round_pos (- x))%Q
  end.

(** A decimal literal of the source. *)
Definition literal (q : Q) : float64 := Finite (round_double q).

(** [int64 -> float64], as in [astype('float')] and in mixed arithmetic. *)
Definition float_of_int (a : Z) : float64 := Finite (round_double (inject_Z a)).

Definition Qlt_bool (a b : Q) : bool := negb (Qle_bool b a).

(** [x / y] with [np.seterr(divide='ignore', invalid='ignore')]: no
    exception, IEEE results. *)
Definition float_div (x y : float64) : float64 :=
  match x, y with
  | NaN, _ | _, NaN => NaN
  | (PInf | NInf), (PInf | NInf) => NaN
  | PInf, Finite b => if Qlt_bool b 0 then NInf else PInf
  | NInf, Finite b => if Qlt_bool b 0 then PInf else NInf
  | Finite _, (PInf | NInf) => Finite 0
  | Finite a, Finite b =>
      if Qeq_bool b 0
      then (if Qeq_bool a 0 then NaN else if Qlt_bool a 0 then NInf else PInf)
      else Finite (round_double (a / b))
  end.

(** [x < y]; false as soon as one side is NaN. *)
Definition float_lt (x y : float64) : bool :=
  match x, y with
  | NaN, _ | _, NaN => false
  | _, NInf => false
  | NInf, _ => true
  | PInf, _ => false
  | _, PInf => true
  | Finite a, Finite b => Qlt_bool a b
  end.

(** [x <= y]; false as soon as one side is NaN. *)
Definition float_le (x y : float64) : bool :=
  match x, y with
  | NaN, _ | _, NaN => false
  | NInf, _ => true
  | _, PInf => true
  | _, NInf => false
  | PInf, _ => false
  | Finite a, Finite b => Qle_bool a b
  end.

(** [np.isnan] *)
Definition isnan (x : float64) : bool :=
  match x with NaN => true | _ => false end.

(** ** Labels and confusion matrices *)

(** The three classes of the target, in the order in which scikit-learn
    sorts their names (the row and column order of [confusion_matrix]). *)
Inductive label : Type := C0 | C1 | C2.

Definition label_eqb (a b : label) : bool :=
  match a, b with
  | C0, C0 | C1, C1 | C2, C2 => true
  | _, _ => false
  end.

Definition class_labels : list label := [C0; C1; C2].

Definition class_index (c : label) : nat :=
  match c with C0 => 0 | C1 => 1 | C2 => 2 end.

(** Number of test examples with true class [t] that were predicted [p]. *)
Definition count_cell (t p : label) (Ytest Ypred : list label) : Z :=
  Z.of_nat (length (List.filter
    (fun yy : label * label => label_eqb (fst yy) t && label_eqb (snd yy) p)
    (combine Ytest Ypred))).

(** [sklearn.metrics.confusion_matrix(Ytest, Ypred)]: rows are true
    classes, columns predicted classes.  scikit-learn takes the labels from
    the data; the model is for trials in which each of the three classes
    occurs among the test labels or the predictions, so that the matrix is
    3x3. *)
Definition confusion_matrix (Ytest Ypred : list label) : list (list Z) :=
  map (fun t => map (fun p => count_cell t p Ytest Ypred) class_labels)
    class_labels.

(** [np.add] on arrays of one shape (int64 counts, taken below [2^63]). *)
Definition np_add (A B : list (list Z)) : list (list Z) :=
  zip_with (zip_with Z.add) A B.

Definition sum_Z (row : list Z) : Z := fold_right Z.add 0%Z row.

(** [matrix.sum(axis=1)] *)
Definition row_sums (m : list (list Z)) : list Z := map sum_Z m.

(** [matrix.astype('float') / matrix.sum(axis=1)[:, np.newaxis]] *)
Definition normalize (m : list (list Z)) : list (list float64) :=
  zip_with
    (fun row s => map (fun a => float_div (float_of_int a) (float_of_int s)) row)
    m (row_sums m).

(** ** Collaborators of the trial aggregator *)

(** [DataPreparation.processDataFromFile]: a fresh random split of the data
    set into training and test features and labels. *)
Class DataPreparation (W X Excl : Type) : Type := {
  processDataFromFile :
    string -> string -> Excl -> Py W (X * X * list label * list label)
}.

(** [Classifier.random_forest]: the trained model, its predictions on the
    test features, and the two accuracies. *)
Class Classifier (W X Model : Type) : Type := {
  random_forest :
    X -> list label -> X -> list label ->
    Py W (Model * list label * float64 * float64)
}.

(** ** [computeConfusionMatrix] (validator.py, lines 19-49) *)

Record cm_locals : Type := {
  cm_count : Z;
  cm_matrix : option (list (list Z))
}.

Section ComputeConfusionMatrix.
Context {W X Excl Model : Type}.
Context {DP : DataPreparation W X Excl} {CL : Classifier W X Model}.
Variables (filename target : string) (exclude : Excl).

(** One pass through the body of the [while] loop (lines 40-46).
    [count is 0] compares identities; the interpreter shares the small
    integers, so the test holds exactly when [count] equals 0. *)
Definition cm_body (st : cm_locals) : Py W cm_locals :=
  '(Xtrain, Xtest, Ytrain, Ytest) ← processDataFromFile filename target exclude;
  '(_, Ypred, _, _) ← random_forest Xtrain Ytrain Xtest Ytest;
  matrix ←
    (if (cm_count st =? 0)%Z then
       mret (Some (confusion_matrix Ytest Ypred))
     else if (cm_count st >? 1)%Z then
       m ← read_local "matrix" (cm_matrix st);
       mret (Some (np_add m (confusion_matrix Ytest Ypred)))
     else mret (cm_matrix st));
  mret {| cm_count := cm_count st + 1; cm_matrix := matrix |}.

(** The loop [count = 0; while (count <= iterations): ...]. *)
Definition cm_loop (iterations : Z) : Py W cm_locals :=
  while (S (Z.to_nat (iterations + 1)))
    (fun st => (cm_count st <=? iterations)%Z) cm_body
    {| cm_count := 0; cm_matrix := None |}.

Definition computeConfusionMatrix (iterations : Z)
    : Py W (list (list Z) * list (list float64)) :=
  st ← cm_loop iterations;
  matrix ← read_local "matrix" (cm_matrix st);
  mret (matrix, normalize matrix).
End ComputeConfusionMatrix.

(** ** [Summarize] (validator.py, lines 51-129) *)

(** The scikit-learn metrics that [Summarize] imports.
    [classification_report Ytest Ypred] is the report as the frame of line
    98: the dictionary of [output_dict=True] through
    [pd.DataFrame.from_dict] and [round(2)]. *)
Class SklearnMetrics (Rep : Type) : Type := {
  cohen_kappa_score : list label -> list label -> float64;
  f1_score_micro : list label -> list label -> float64;
  matthews_corrcoef : list label -> list label -> float64;
  classification_report : list label -> list label -> Rep
}.

(** A column label of the frame [Summary]: one of the names given to the
    constructor at line 88, or the pair [count, name] that lines 100-112
    assign to. *)
Inductive column_label : Type :=
| Name (name : string)
| Numbered (count : Z) (name : string).

(** A value assigned to a column: a float, or the one-dimensional array
    [.values[0]] of a selection of the report. *)
Inductive column_value : Type :=
| Scalar (x : float64)
| Array (xs : list float64).

(** pandas as [Summarize] calls it, over its frames [F], its series [Sr]
    and the report frames [Rep].
    - [pd_DataFrame columns] is [pd.DataFrame(columns=columns)];
    - [frame_setitem df key value] is the frame after [df[key] = value];
    - [frame_getitem df name] is [df[name]], a Series: the labels of
      [Summary] are distinct;
    - [frame_mean_rows df] is [df.mean(axis=1)], the Series of the means of
      the rows;
    - [report_loc report row col] is [report.loc[[row], [col]].values[0]].
    What pandas may refuse (a label that is missing, a value of another
    length than the index) runs in [Py]. *)
Class Pandas (W F Sr Rep : Type) : Type := {
  pd_DataFrame : list string -> F;
  frame_setitem : F -> column_label -> column_value -> Py W F;
  frame_getitem : F -> string -> Py W Sr;
  frame_mean_rows : F -> Sr;
  report_loc : Rep -> string -> string -> Py W (list float64)
}.

(** The statistics of a Series, and the one-sample t-test of scipy
    ([ttest_1samp] returns the statistic and the two-tailed p-value). *)
Class Statistics (Sr : Type) : Type := {
  std : Sr -> float64;
  mean : Sr -> float64;
  ttest_1samp : Sr -> float64 -> float64 * float64
}.

(** [Series._get_axis_number]: a Series has one axis, the axis 0; for any
    other number pandas raises ValueError (No axis named ... for object
    type Series). *)
Definition Series_get_axis_number {W} (axis : Z) : Py W Z :=
  if (axis =? 0)%Z then mret 0%Z
  else raise (ValueError "No axis of that number for object type Series").

(** [s.std(axis=axis)] and [s.mean(axis=axis)] for a Series [s]: the axis
    is checked first. *)
Definition Series_std {W Sr} {ST : Statistics Sr} (s : Sr) (axis : Z)
    : Py W float64 :=
  _ ← Series_get_axis_number axis;
  mret (std s).

Definition Series_mean {W Sr} {ST : Statistics Sr} (s : Sr) (axis : Z)
    : Py W float64 :=
  _ ← Series_get_axis_number axis;
  mret (mean s).

(** The names of line 88; the literals ['MCC'] and ['Precision'] have no
    comma between them and are one name. *)
Definition summary_columns : list string :=
  ["CV"; "Accuracy"; "Sigma"; "Mean"; "Kappa"; "F1"; "MCCPrecision"; "Recall";
   "UPREG/GAIN Precision"; "DOWNREG/LOSS Precision"; "UPREG/GAIN Recall";
   "DOWNREG/LOSS Recall"; "T-score"; "P-value"].

(** The returned Series: the means of the rows of [Summary] and the five
    entries of lines 123-127. *)
Record SummaryStatistics (Sr : Type) : Type := {
  ss_RowMeans : Sr;
  ss_Tscore : float64;
  ss_Pvalue : float64;
  ss_Sigma : float64;
  ss_Mean : float64;
  ss_Cancer : string
}.
Arguments ss_RowMeans {Sr} _.
Arguments ss_Tscore {Sr} _.
Arguments ss_Pvalue {Sr} _.
Arguments ss_Sigma {Sr} _.
Arguments ss_Mean {Sr} _.
Arguments ss_Cancer {Sr} _.

Record sm_locals (F : Type) : Type := {
  sm_count : Z;
  sm_Summary : F
}.
Arguments sm_count {F} _.
Arguments sm_Summary {F} _.

(** [filename.split('.')[0]] *)
Fixpoint split_dot_head (s : string) : string :=
  match s with
  | EmptyString => EmptyString
  | String c s' =>
      if Ascii.eqb c "."%char then EmptyString else String c (split_dot_head s')
  end.

(** The literal [1E-50] of line 119. *)
Definition pvalue_floor : float64 := literal (1 # 10 ^ 50).

Section Summarize.
Context {W X Excl Model F Sr Rep : Type}.
Context {DP : DataPreparation W X Excl} {CL : Classifier W X Model}.
Context {SK : SklearnMetrics Rep} {PD : Pandas W F Sr Rep}.
Context {ST : Statistics Sr}.
Variables (filename target : string) (exclude : Excl).

(** Lines 82-85; [target is "CNV"] holds for the interned literal. *)
Definition sm_labels : list string :=
  if String.eqb target "CNV" then ["GAIN"; "NEUT"; "LOSS"]
  else ["UPREG"; "NEUTRAL"; "DOWNREG"].

Definition sm_label (i : nat) : string := nth i sm_labels ""%string.

(** The trial of one pass (lines 94-112), the one numbered [count]:
    every metric is assigned to the column of [Summary] that is labelled
    by the pair of [count] and the metric's name. *)
Definition sm_trial (count : Z) (Summary : F) : Py W F :=
  '(Xtrain, Xtest, Ytrain, Ytest) ← processDataFromFile filename target exclude;
  '(_, Ypred, OOBAccuracy, CVAccuracy) ← random_forest Xtrain Ytrain Xtest Ytest;
  let report := classification_report Ytest Ypred in
  Summary ← frame_setitem Summary (Numbered count "Accuracy") (Scalar OOBAccuracy);
  Summary ← frame_setitem Summary (Numbered count "CV") (Scalar CVAccuracy);
  Summary ← frame_setitem Summary (Numbered count "Kappa")
              (Scalar (cohen_kappa_score Ytest Ypred));
  Summary ← frame_setitem Summary (Numbered count "F1")
              (Scalar (f1_score_micro Ytest Ypred));
  Summary ← frame_setitem Summary (Numbered count "MCC")
              (Scalar (matthews_corrcoef Ytest Ypred));
  v ← report_loc report "precision" "micro avg";
  Summary ← frame_setitem Summary (Numbered count "Precision") (Array v);
  v ← report_loc report "precision" (sm_label 0);
  Summary ← frame_setitem Summary (Numbered count "UPREG/GAIN Precision") (Array v);
  v ← report_loc report "precision" (sm_label 2);
  Summary ← frame_setitem Summary (Numbered count "DOWNREG/LOSS Precision") (Array v);
  v ← report_loc report "recall" "micro avg";
  Summary ← frame_setitem Summary (Numbered count "Recall") (Array v);
  v ← report_loc report "recall" (sm_label 0);
  Summary ← frame_setitem Summary (Numbered count "UPREG/GAIN Recall") (Array v);
  v ← report_loc report "recall" (sm_label 2);
  frame_setitem Summary (Numbered count "DOWNREG/LOSS Recall") (Array v).

(** One pass through the body of the [while] loop (lines 94-114). *)
Definition sm_body (st : sm_locals F) : Py W (sm_locals F) :=
  Summary ← sm_trial (sm_count st) (sm_Summary st);
  mret {| sm_count := sm_count st + 1; sm_Summary := Summary |}.

(** Lines 88-114: the empty frame and the loop
    [count = 0; while(count <= iterations): ...]. *)
Definition sm_loop (iterations : Z) : Py W (sm_locals F) :=
  while (S (Z.to_nat (iterations + 1)))
    (fun st => (sm_count st <=? iterations)%Z) sm_body
    {| sm_count := 0; sm_Summary := pd_DataFrame summary_columns |}.

(** Lines 116-129: the reduction of the frame to the returned Series.
    [Summary['Accuracy']] is a Series, and lines 116 and 117 ask it for
    a statistic along axis 1. *)
Definition sm_reduce (Summary : F) : Py W (SummaryStatistics Sr) :=
  Accuracy ← frame_getitem Summary "Accuracy";
  sigma ← Series_std Accuracy 1;
  Accuracy ← frame_getitem Summary "Accuracy";
  mu ← Series_mean Accuracy 1;
  Accuracy ← frame_getitem Summary "Accuracy";
  let '(tscore, pvalue) := ttest_1samp Accuracy mu in
  let pvalue := if float_lt pvalue pvalue_floor then pvalue_floor else pvalue in
  let Summary := frame_mean_rows Summary in
  mret {| ss_RowMeans := Summary;
          ss_Tscore := tscore;
          ss_Pvalue := pvalue;
          ss_Sigma := sigma;
          ss_Mean := mu;
          ss_Cancer := split_dot_head filename |}.

Definition Summarize (iterations : Z) : Py W (SummaryStatistics Sr) :=
  st ← sm_loop iterations;
  sm_reduce (sm_Summary st).
End Summarize.

(** ** [PearsonCorrelation] (validator.py, lines 132-167) *)

(** pandas as [PearsonCorrelation] calls it, over the frames [D], the
    series [Sr] and the values [Obj] that a median can be.
    - [frame_pop df item] is [df.pop(item)]: the column [item] as a Series;
      the column is removed from the frame itself.  KeyError if there is no
      such column.
    - A name that is no attribute of a Series is looked up among the labels
      of its index ([NDFrame.__getattr__]): [series_has_label s name] tells
      whether the index of [s] has the label [name], and
      [series_iter_entry s name] is then the iteration [for col in s.name]
      over the entry.
    - [series_getitem_median s col] is [s[col].median()]. *)
Class Frames (W D Sr Obj : Type) : Type := {
  frame_pop : D -> string -> Py W Sr;
  series_has_label : Sr -> string -> bool;
  series_iter_entry : Sr -> string -> Py W (list string);
  series_getitem_median : Sr -> string -> Py W Obj
}.

(** [scipy.stats.pearsonr] returns a pair: the correlation coefficient and
    the p-value of the test for no correlation. *)
Class Correlation (W Obj : Type) : Type := {
  pearsonr : Obj -> list float64 -> Py W (float64 * float64)
}.

Definition gradient : list float64 :=
  [literal 1; literal 0; literal (-1)].

(** What [corr] holds for a column: the pair that [pearsonr] returned, or
    the float of line 162. *)
Inductive reported : Type :=
| Pearson (r p : float64)
| Float (x : float64).

(** [np.isnan] of the pair: the array of the two tests. *)
Definition np_isnan (c : float64 * float64) : list bool :=
  [isnan (fst c); isnan (snd c)].

(** [a != True] for an array of booleans, element by element. *)
Definition array_ne_True (a : list bool) : list bool :=
  map (fun b => negb (Bool.eqb b true)) a.

(** The truth value that [if] asks of an array: that of its element when
    it has one; numpy raises ValueError for an array of several elements
    (The truth value of an array with more than one element is
    ambiguous). *)
Definition ndarray_bool {W} (a : list bool) : Py W bool :=
  match a with
  | [] => mret false
  | [b] => mret b
  | _ => raise (ValueError "The truth value of an array with more than one element is ambiguous")
  end.

Section PearsonCorrelation.
Context {W D Sr Obj : Type}.
Context {FR : Frames W D Sr Obj} {CO : Correlation W Obj}.

(** [df.columns] at line 154.  Line 153 has bound [df] to what [pop]
    returned, the Series of the target column, and a Series has no
    attribute [columns]. *)
Definition Series_columns (df : Sr) : Py W (list string) :=
  if series_has_label df "columns" then series_iter_entry df "columns"
  else raise (AttributeError "'Series' object has no attribute 'columns'").

(** One pass of the inner loop (lines 155-162). *)
Definition pc_column (df : Sr) (col : string) (corr : gmap string reported)
    : Py W (gmap string reported) :=
  median ← series_getitem_median df col;
  correlation ← pearsonr median gradient;
  test ← ndarray_bool (array_ne_True (np_isnan correlation));
  mret (if test : bool
        then <[col := Pearson (fst correlation) (snd correlation)]> corr
        else <[col := Float (literal 0)]> corr).

(** One pass of the outer loop (lines 149-165); [count] is set to 0 at
    the head of every pass. *)
Definition pc_frame (target : string) (df : D)
    (pearsonCorrelationDict : gmap Z (gmap string reported))
    : Py W (gmap Z (gmap string reported)) :=
  let count := 0%Z in
  df ← frame_pop df target;
  columns ← Series_columns df;
  corr ← for_each columns (pc_column df) ∅;
  mret (<[count := corr]> pearsonCorrelationDict).

Definition PearsonCorrelation (diffExpDFs : list D) (target : string)
    : Py W (gmap Z (gmap string reported)) :=
  for_each diffExpDFs (pc_frame target) ∅.
End PearsonCorrelation.

(** ** The ablation engine: collaborators and data *)

(** scikit-learn and imbalanced-learn as the ablation engine calls them.
    - [train_test_split rows classes test_size] returns the training and the
      held-out rows, each row still paired with its class;
    - [RandomOverSampler_fit_sample] returns the resampled rows with their
      classes;
    - [RandomForestClassifier_fit n_estimators max_features X y] builds and
      fits one ensemble.
    The first two are polymorphic in the rows: they move rows around and do
    not read them. *)
Class Learning (W Model : Type) : Type := {
  train_test_split :
    forall {A B : Type}, list A -> list B -> Q -> Py W (list (A * B) * list (A * B));
  RandomOverSampler_fit_sample :
    forall {A : Type}, list (A * label) -> Py W (list (A * label));
  RandomForestClassifier_fit :
    Z -> Z -> list (list float64) -> list label -> Py W Model;
  rfc_predict : Model -> list (list float64) -> list label;
  rfc_score : Model -> list (list float64) -> list label -> float64;
  RobustScaler_fit_transform : list (list float64) -> list (list float64)
}.

(** The loading steps of [DataPreparation] used by [leave_one_feat_out]. *)
Class DataLoading (W Raw Excl : Type) : Type := {
  load_data : string -> Py W (Raw * string);
  label_encode : Raw -> Raw;
  prune_targets : Raw -> string -> Excl -> Raw * list label;
  raw_drop : Raw -> list string -> Raw;
  robust_scaler : Raw -> list (list float64);
  raw_columns : Raw -> list string
}.

(** A numeric data frame: column names and rows. *)
Record DataFrame : Type := {
  df_columns : list string;
  df_rows : list (list float64)
}.

(** [df.shape[1]] *)
Definition shape1 (df : DataFrame) : Z := Z.of_nat (length (df_columns df)).

(** [l[a:b]] for [0 <= a], [l[a:]] when [b] is [None]. *)
Definition slice {A} (a : nat) (b : option nat) (l : list A) : list A :=
  match b with
  | Some b => firstn (b - a) (skipn a l)
  | None => skipn a l
  end.

(** Entries of [l] at the positions where [mask] is true. *)
Definition select {A} (mask : list bool) (l : list A) : list A :=
  map snd (List.filter fst (combine mask l)).

(** [df.drop(labels, axis=1)]: every column named in [labels] goes. *)
Definition df_drop (df : DataFrame) (labels : list string) : DataFrame :=
  let mask :=
    map (fun c => negb (existsb (String.eqb c) labels)) (df_columns df) in
  {| df_columns := select mask (df_columns df);
     df_rows := map (select mask) (df_rows df) |}.

(** One row of the returned table. *)
Record AblationRow : Type := {
  ab_Cancer : string;
  ab_Target : string;
  ab_HeldOut : string;
  ab_MeanAccuracy : float64
}.

(** A bound on the number of times the test of
    [x = start; while x <= stop: x += step] is evaluated (also for the
    strict test). *)
Definition passes (start stop step : Z) : nat :=
  S (Z.to_nat ((stop - start) / step + 1)).

Record sweep_locals (Model : Type) : Type := {
  sw_feat : Z;
  sw_rfc : option Model;
  sw_output : list AblationRow
}.
Arguments sw_feat {Model} _.
Arguments sw_rfc {Model} _.
Arguments sw_output {Model} _.

Section GridSweep.
Context {W Model : Type} {LE : Learning W Model}.

(** The inner loop of both ablation functions (lines 261-266, 323-328);
    the locals are [trees] and [rfc]. *)
Definition tree_loop (feat : Z) (data : list (list float64))
    (classes : list label) (rfc : option Model) : Py W (Z * option Model) :=
  while (passes 5 500 1500)
    (fun st => (fst st <=? 500)%Z)
    (fun st =>
       rfc ← RandomForestClassifier_fit (fst st) feat data classes;
       mret ((fst st + 1500)%Z, Some rfc))
    (5%Z, rfc).

(** The feature-count loop of both ablation functions (lines 259-270,
    321-332).  [ncols] is [shape[1]] of the training data, [held_data] and
    [held_classes] the held-out partition, [mk] the evaluation of the row
    [[canc, targ, ..., mean_acc]] that is appended for an accuracy. *)
Definition grid_sweep (ncols : Z) (data : list (list float64))
    (classes : list label) (held_data : list (list float64))
    (held_classes : list label) (mk : float64 -> Py W AblationRow)
    (output : list AblationRow) : Py W (list AblationRow) :=
  st ← while (passes (ncols - 10) (ncols - 1) 20)
    (fun st => (sw_feat st <? ncols - 1)%Z)
    (fun st =>
       '(_, rfc) ← tree_loop (sw_feat st) data classes (sw_rfc st);
       let feat := (sw_feat st + 20)%Z in
       rfc ← read_local "rfc" rfc;
       let rfc_pred := rfc_predict rfc held_data in
       let mean_acc := rfc_score rfc held_data held_classes in
       row ← mk mean_acc;
       mret {| sw_feat := feat; sw_rfc := Some rfc;
               sw_output := sw_output st ++ [row] |})
    {| sw_feat := ncols - 10; sw_rfc := None; sw_output := output |};
  mret (sw_output st).
End GridSweep.

(** ** [leave_one_feat_out] (validator.py, lines 211-277) *)

Section LeaveOneFeatOut.
Context {W Model Raw Excl : Type}.
Context {LE : Learning W Model} {DL : DataLoading W Raw Excl}.
(** [canc] and [targ] are neither parameters nor locals of the function:
    line 270 reads them as globals of the module, which itself binds
    neither ([None]: not bound). *)
Variables (canc targ : option string).

(** The five frames of lines 232-236. *)
Definition lofo_frames (df : DataFrame) : result (list (string * DataFrame)) :=
  let cols := df_columns df in
  match nth_error cols 134 with
  | None => Raise (LibraryError "IndexError")
  | Some c134 =>
      let dynm := df_drop df (slice 0 (Some 52) cols) in
      let topo := df_drop df (slice 53 (Some 132) cols) in
      let kexp := df_drop df (slice 132 None cols) in
      let genexp := df_drop df (slice 133 None cols) in
      let subsys := df_drop df [c134] in
      (* dfs = [topo, dynm, kexp, genexp, subsys], each with the name that
         the chain of [df is ...] tests gives it *)
      Return [("Toplogical Features"%string, topo);
              ("Dynamic Features"%string, dynm);
              ("Gene expression and kcat"%string, kexp);
              ("Gene expression only"%string, genexp);
              ("RECON1 Subsystem only"%string, subsys)]
  end.

(** One pass of [for df in dfs] (lines 256-270). *)
Definition lofo_group (classes : list label) (g : string * DataFrame)
    (output : list AblationRow) : Py W (list AblationRow) :=
  let '(lofo, df) := g in
  '(new, orig) ← train_test_split (df_rows df) classes (3 # 10);
  grid_sweep (shape1 df) (map fst new) (map snd new) (map fst orig) (map snd orig)
    (fun mean_acc =>
       canc ← read_global "canc" canc;
       targ ← read_global "targ" targ;
       mret {| ab_Cancer := canc; ab_Target := targ;
               ab_HeldOut := lofo; ab_MeanAccuracy := mean_acc |})
    output.

Definition leave_one_feat_out (filename target : string) (exclude : Excl)
    : Py W (list AblationRow) :=
  '(model, cancer) ← load_data filename;
  let label_encoded_model := label_encode model in
  let '(prune_models, classes) := prune_targets label_encoded_model target exclude in
  let prune_models := raw_drop prune_models ["Genes"; "Cell Line"]%string in
  let robust_model := robust_scaler prune_models in
  let df := {| df_columns := raw_columns model; df_rows := robust_model |} in
  match lofo_frames df with
  | Raise e => raise e
  | Return dfs => for_each dfs (lofo_group classes) []
  end.
End LeaveOneFeatOut.

(** ** Regular expressions, as [Series.str.contains] applies them

    [str.contains(pat)] has [regex=True] by default: it compiles [pat] with
    [re.compile] and keeps the rows in which [re.search] finds a match.  The
    fragment modelled here is the patterns made of ordinary characters, [.],
    [|] and parentheses; a pattern with any other special character is
    [Unsupported]. *)

Inductive regex : Type :=
| Eps
| Chr (c : ascii)
| Dot
| Cat (r1 r2 : regex)
| Alt (r1 r2 : regex).

(** [rmatch r s k]: some prefix of [s] matches [r] and [k] accepts the rest. *)
Fixpoint rmatch (r : regex) (s : list ascii) (k : list ascii -> bool) : bool :=
  match r with
  | Eps => k s
  | Chr c =>
      match s with
      | a :: s' => if Ascii.eqb a c then k s' else false
      | [] => false
      end
  | Dot =>
      match s with
      | a :: s' => if Ascii.eqb a "010"%char then false else k s'
      | [] => false
      end
  | Cat r1 r2 => rmatch r1 s (fun s' => rmatch r2 s' k)
  | Alt r1 r2 => rmatch r1 s k || rmatch r2 s k
  end.

(** [re.search]: a match starting at some position of [s]. *)
Fixpoint re_search (r : regex) (s : list ascii) : bool :=
  rmatch r s (fun _ => true) ||
  match s with
  | [] => false
  | _ :: s' => re_search r s'
  end.

(** The special characters of [re]. *)
Definition special_chars : list ascii :=
  list_ascii_of_string ".^$*+?{}[]\|()".

Definition is_special (c : ascii) : bool := existsb (Ascii.eqb c) special_chars.

(** The group being parsed: the alternatives closed by [|] so far and the
    sequence after the last [|]. *)
Record frame : Type := {
  fr_alts : option regex;
  fr_seq : regex
}.

Definition frame_empty : frame := {| fr_alts := None; fr_seq := Eps |}.

Definition frame_close (f : frame) : regex :=
  match fr_alts f with
  | None => fr_seq f
  | Some a => Alt a (fr_seq f)
  end.

Definition frame_push (r : regex) (f : frame) : frame :=
  {| fr_alts := fr_alts f; fr_seq := Cat (fr_seq f) r |}.

Inductive compiled : Type :=
| Compiled (r : regex)
| Rejected          (* [re.error]: unbalanced parentheses *)
| Unsupported.      (* outside the fragment *)

Fixpoint re_parse (pat : list ascii) (stack : list frame) (top : frame)
    : compiled :=
  match pat with
  | [] =>
      match stack with
      | [] => Compiled (frame_close top)
      | _ :: _ => Rejected
      end
  | c :: pat' =>
      if Ascii.eqb c "("%char then re_parse pat' (top :: stack) frame_empty
      else if Ascii.eqb c ")"%char then
        match stack with
        | [] => Rejected
        | parent :: stack' =>
            re_parse pat' stack' (frame_push (frame_close top) parent)
        end
      else if Ascii.eqb c "|"%char then
        re_parse pat' stack
          {| fr_alts := Some (frame_close top); fr_seq := Eps |}
      else if Ascii.eqb c "."%char then re_parse pat' stack (frame_push Dot top)
      else if is_special c then Unsupported
      else re_parse pat' stack (frame_push (Chr c) top)
  end.

Definition re_compile (pat : string) : compiled :=
  re_parse (list_ascii_of_string pat) [] frame_empty.

(** ** [leave_one_cell_out] (validator.py, lines 280-337) *)

(** One row of [df2] after [reset_index]: the two index columns, the numeric
    columns and the target. *)
Record CellSample : Type := {
  cs_genes : string;
  cs_cell_line : string;
  cs_values : list float64;
  cs_class : label
}.

(** [df2]: the names of the numeric columns and the rows. *)
Record CellFrame : Type := {
  cf_columns : list string;
  cf_samples : list CellSample
}.

(** [Series.unique()]: the distinct values in order of first appearance. *)
Fixpoint unique (l : list string) : list string :=
  match l with
  | [] => []
  | x :: l' => x :: List.filter (fun y => negb (String.eqb y x)) (unique l')
  end.

Section LeaveOneCellOut.
Context {W Model : Type} {LE : Learning W Model}.

(** Lines 286-301: robust scaling of the numeric columns; the other
    columns of every row stay as they are. *)
Definition loco_scaled (df2 : CellFrame) : list CellSample :=
  let num := RobustScaler_fit_transform (map cs_values (cf_samples df2)) in
  zip_with
    (fun s v => {| cs_genes := cs_genes s; cs_cell_line := cs_cell_line s;
                   cs_values := v; cs_class := cs_class s |})
    (cf_samples df2) num.

(** Line 307: [df2[~df2["Cell Line"].str.contains(str(cell))]]. *)
Definition loco_new_df (df2 : list CellSample) (cell : string)
    : Py W (list CellSample) :=
  match re_compile cell with
  | Compiled r =>
      mret (List.filter
        (fun s => negb (re_search r (list_ascii_of_string (cs_cell_line s))))
        df2)
  | Rejected => raise re_error
  | Unsupported => raise (LibraryError "pattern outside the modelled fragment")
  end.

(** Lines 307-319: the training partition (after oversampling) and the
    evaluation partition of one held-out cell line.  The rows keep their
    ["Cell Line"] value although the code pops that column before the
    split; the collaborators cannot read it. *)
Definition loco_partitions (df2 : list CellSample) (cell : string)
    : Py W (list (CellSample * label) * list (CellSample * label)) :=
  new_df ← loco_new_df df2 cell;
  let classes := map cs_class new_df in
  '(new, orig) ← train_test_split new_df classes (3 # 10);
  data ← RandomOverSampler_fit_sample new;
  mret (data, orig).

(** One pass of [for cell in groups] (lines 306-332). *)
Definition loco_group (canc targ : string) (ncols : Z)
    (df2 : list CellSample) (cell : string) (output : list AblationRow)
    : Py W (list AblationRow) :=
  '(data, orig) ← loco_partitions df2 cell;
  grid_sweep ncols
    (map (fun r => cs_values (fst r)) data) (map snd data)
    (map (fun r => cs_values (fst r)) orig) (map snd orig)
    (fun mean_acc =>
       mret {| ab_Cancer := canc; ab_Target := targ;
               ab_HeldOut := cell; ab_MeanAccuracy := mean_acc |})
    output.

Definition leave_one_cell_out (df2 : CellFrame) (canc targ : string)
    : Py W (list AblationRow) :=
  let rows := loco_scaled df2 in
  let groups := unique (map cs_cell_line rows) in
  for_each groups
    (loco_group canc targ (Z.of_nat (length (cf_columns df2))) rows) [].
End LeaveOneCellOut.

(** ** [computeAUROC] (validator.py, lines 170-208) *)

(** [labels[i]] for the set [labels]: a set has no subscript. *)
Definition set_getitem {W} (labels : gset string) (i : Z) : Py W string :=
  raise (TypeError "'set' object is not subscriptable").

(** What [computeAUROC] calls besides the loading steps of
    [DataPreparation]: [label_binarize], [randomOversampling],
    [Classifier.random_forest] on binarized labels (of type [Bin]), [ravel],
    [roc_curve] and [auc]. *)
Class AurocTools (W X Model Bin : Type) : Type := {
  label_binarize : list label -> list string -> Bin;
  randomOversampling :
    list (list float64) -> Bin -> Q -> Py W (X * X * Bin * Bin);
  random_forest_binarized :
    X -> Bin -> X -> Bin -> Py W (Model * Bin * float64 * float64);
  ravel : Bin -> list Z;
  roc_curve : list Z -> list Z -> list float64 * list float64 * list float64;
  auc : list float64 -> list float64 -> float64
}.

(** The one-row table that is returned. *)
Record AurocRow : Type := {
  au_Cancer : string;
  au_Target : string;
  au_AUROC : float64
}.

Section ComputeAUROC.
Context {W X Model Bin Raw Excl : Type}.
Context {DL : DataLoading W Raw Excl} {AT : AurocTools W X Model Bin}.
(** [targ] is neither a parameter nor a local: line 186 reads it as a
    global of the module ([None]: not bound). *)
Variable targ : option string.

Definition computeAUROC (filename target : string) (exclude : Excl)
    : Py W (list AurocRow) :=
  targ ← read_global "targ" targ;
  let labels : gset string :=
    if String.eqb targ "CNV"
    then {[ "GAIN"; "NEUT"; "LOSS" ]}%string
    else {[ "UPREG"; "NEUTRAL"; "DOWNREG" ]}%string in
  '(model, cancer) ← load_data filename;
  let label_encoded_model := label_encode model in
  let '(prune_models, cls) := prune_targets label_encoded_model target exclude in
  l0 ← set_getitem labels 0;
  l1 ← set_getitem labels 1;
  l2 ← set_getitem labels 2;
  let cls := label_binarize cls [l0; l1; l2] in
  let robust_model := robust_scaler prune_models in
  '(Xtrain, Xtest, Ytrain, Ytest) ← randomOversampling robust_model cls (2 # 10);
  '(_, Ypred, OOBAccuracy, CVAccuracy) ←
    random_forest_binarized Xtrain Ytrain Xtest Ytest;
  let '(FPR, TPR, _) := roc_curve (ravel Ytest) (ravel Ypred) in
  let auroc := auc FPR TPR in
  mret [{| au_Cancer := cancer; au_Target := target; au_AUROC := auroc |}].
End ComputeAUROC.

(** ** [randomForestClassification] (src/classifiers/trees.py, lines 19-65) *)

(** The function is modelled as it reads; the file around it does not
    parse (line 16 breaks off after [from sklearn.ensemble], and the
    parameters of [pickleModel] at line 67 are in an order that Python
    refuses). *)

(** What the function calls: numpy's global seed, the constructor and [fit]
    of [RandomForestClassifier] (with [n_estimators], [criterion],
    [max_features], [bootstrap], [oob_score], [random_state], then the
    training data), [predict], [score], [cross_val_score] with its [cv], the
    mean of an array, and the console ([print] and the progress bar of
    tqdm). *)
Class ForestTools (W X Model : Type) : Type := {
  np_random_seed : Z -> Py W unit;
  RandomForestClassifier_fit_with :
    Z -> string -> string -> bool -> bool -> bool ->
    X -> list label -> Py W Model;
  forest_predict : Model -> X -> list label;
  forest_score : Model -> X -> list label -> float64;
  cross_val_score : Model -> X -> list label -> Z -> Py W (list float64);
  array_mean : list float64 -> float64;
  print : string -> Py W unit;
  tqdm_new : Z -> Py W unit;
  tqdm_update : Z -> Py W unit;
  tqdm_close : Py W unit
}.

Record forest_locals (Model : Type) : Type := {
  fl_initialTrees : Z;
  fl_RFC : option Model
}.
Arguments fl_initialTrees {Model} _.
Arguments fl_RFC {Model} _.

Section RandomForestClassification.
Context {W X Model : Type} {FT : ForestTools W X Model}.

(** The constructor and the fit of lines 50-56. *)
Definition forest_fit (n_estimators : Z) (Xtrain : X) (Ytrain : list label)
    : Py W Model :=
  RandomForestClassifier_fit_with n_estimators "gini" "auto" true true true
    Xtrain Ytrain.

Definition randomForestClassification (Xtrain : X) (Ytrain : list label)
    (Xtest : X) (Ytest : list label)
    : Py W (Model * list label * float64 * float64) :=
  _ ← np_random_seed 0;
  let initialTrees := 64%Z in
  let totalTrees := 128%Z in
  _ ← print "Starting to train random forest model";
  _ ← tqdm_new initialTrees;
  st ← while (passes initialTrees totalTrees 1)
    (fun st => (fl_initialTrees st <=? totalTrees)%Z)
    (fun st =>
       RFC ← forest_fit (fl_initialTrees st) Xtrain Ytrain;
       _ ← tqdm_update 1;
       mret {| fl_initialTrees := fl_initialTrees st + 1; fl_RFC := Some RFC |})
    {| fl_initialTrees := initialTrees; fl_RFC := None |};
  _ ← tqdm_close;
  RFC ← read_local "RFC" (fl_RFC st);
  let RFC_prediction := forest_predict RFC Xtest in
  let HoldOutAccuracy := forest_score RFC Xtest Ytest in
  scores ← cross_val_score RFC Xtest Ytest 10;
  let CVAccuracy := array_mean scores in
  _ ← print "Finished training random forest";
  mret (RFC, RFC_prediction, HoldOutAccuracy, CVAccuracy).
End RandomForestClassification.

(** ** The labels of [make_surv] (src/surv.py, lines 29-36) *)

(** [x >= y] and [x > y] on doubles; false as soon as one side is NaN. *)
Definition float_ge (x y : float64) : bool := float_le y x.
Definition float_gt (x y : float64) : bool := float_lt y x.

(** One row of the table after line 28: the gene, the cancer type, the
    hazard ratio, the Cox p-value and the label. *)
Record SurvRow : Type := {
  sv_ID_NAME : string;
  sv_CANCER_TYPE : string;
  sv_HR : float64;
  sv_COX : float64;
  sv_SURV : string
}.

Definition set_SURV (v : string) (r : SurvRow) : SurvRow :=
  {| sv_ID_NAME := sv_ID_NAME r; sv_CANCER_TYPE := sv_CANCER_TYPE r;
     sv_HR := sv_HR r; sv_COX := sv_COX r; sv_SURV := v |}.

(** [df["SURV"].loc[mask] = v]: the rows selected by [mask] get [v].  The
    assignment goes through the column to the frame, as it does in the
    pandas that the code is written for (no copy-on-write). *)
Definition loc_assign (mask : SurvRow -> bool) (v : string)
    (df : list SurvRow) : list SurvRow :=
  map (fun r => if mask r then set_SURV v r else r) df.

(** Lines 29-36, with the thresholds [cox], [hr_up], [hr_low]. *)
Definition make_surv_labels (cox hr_up hr_low : float64)
    (df : list SurvRow) : list SurvRow :=
  let df := map (set_SURV "") df in
  let df := loc_assign
    (fun r => float_ge (sv_HR r) hr_up && float_le (sv_COX r) cox) "UPREG" df in
  let df := loc_assign
    (fun r => float_le (sv_HR r) hr_low && float_le (sv_COX r) cox) "DOWNREG" df in
  let df := loc_assign
    (fun r => float_ge (sv_HR r) hr_up && float_gt (sv_COX r) cox) "NEUTRAL" df in
  let df := loc_assign
    (fun r => float_le (sv_HR r) hr_low && float_gt (sv_COX r) cox) "NEUTRAL" df in
  let df := loc_assign
    (fun r => float_lt (sv_HR r) hr_up && float_gt (sv_HR r) hr_low) "NEUTRAL" df in
  df.

(** ** Reference programs and measures used in the statements *)

(** [m] run [n] times in a row, results in order. *)
Fixpoint repeat_py {W A} (n : nat) (m : Py W A) : Py W (list A) :=
  match n with
  | O => mret []
  | S n' => a ← m; l ← repeat_py n' m; mret (a :: l)
  end.

(** The passes numbered [count], [count + 1], ... of a trial, [n] of them,
    each on the result of the one before. *)
Fixpoint numbered_py {W A} (n : nat) (count : Z) (trial : Z -> A -> Py W A)
    (a : A) : Py W A :=
  match n with
  | O => mret a
  | S n' => a' ← trial count a; numbered_py n' (count + 1)%Z trial a'
  end.

Section Trials.
Context {W X Excl Model : Type}.
Context {DP : DataPreparation W X Excl} {CL : Classifier W X Model}.
Variables (filename target : string) (exclude : Excl).

(** One train/evaluate trial of [computeConfusionMatrix]: the test labels
    and the predictions. *)
Definition cm_trial : Py W (list label * list label) :=
  '(Xtrain, Xtest, Ytrain, Ytest) ← processDataFromFile filename target exclude;
  '(_, Ypred, _, _) ← random_forest Xtrain Ytrain Xtest Ytest;
  mret (Ytest, Ypred).
End Trials.

(** The confusion matrix of one trial. *)
Definition trial_matrix (t : list label * list label) : list (list Z) :=
  confusion_matrix (fst t) (snd t).

(** What the loop of [computeConfusionMatrix] leaves in [matrix] after the
    trials [ts]: the first trial's matrix plus those of the third and later
    trials. *)
Definition accumulated (ts : list (list label * list label))
    : option (list (list Z)) :=
  match ts with
  | [] => None
  | t0 :: rest =>
      Some (fold_left (fun m t => np_add m (trial_matrix t)) (tl rest)
              (trial_matrix t0))
  end.

(** Number of test examples with true class [c] in the trials [ts]. *)
Definition true_count (c : label) (ts : list (list label * list label)) : Z :=
  sum_Z (map (fun t => Z.of_nat (length (List.filter (label_eqb c) (fst t)))) ts).


(** The sweep with its loops unrolled: one ensemble of 5 trees on
    [ncols - 10] features, scored once on the held-out partition, and one
    row appended for that score. *)
Definition single_fit {W Model} {LE : Learning W Model} (ncols : Z)
    (data : list (list float64)) (classes : list label)
    (held_data : list (list float64)) (held_classes : list label)
    (mk : float64 -> Py W AblationRow) (output : list AblationRow)
    : Py W (list AblationRow) :=
  rfc ← RandomForestClassifier_fit 5 (ncols - 10) data classes;
  row ← mk (rfc_score rfc held_data held_classes);
  mret (output ++ [row]).

(** [p] occurs in [s] as a run of consecutive characters. *)
Definition substring (p s : string) : Prop :=
  exists pre post : list ascii,
    list_ascii_of_string s = pre ++ list_ascii_of_string p ++ post.

(** No character of [p] is special for [re]. *)
Definition plain (p : string) : Prop :=
  Forall (fun c => is_special c = false) (list_ascii_of_string p).

(** No row comes out of the split, or of the oversampler, that did not go
    in: what scikit-learn and imbalanced-learn promise about the rows. *)
Definition split_returns_given_rows {W Model} (LE : Learning W Model) : Prop :=
  forall (A B : Type) (rows : list A) (classes : list B) size w new orig w',
    train_test_split rows classes size w = (Return (new, orig), w') ->
    forall x, In x new \/ In x orig -> In x (combine rows classes).

Definition oversampler_returns_given_rows {W Model} (LE : Learning W Model)
    : Prop :=
  forall (A : Type) (rows : list (A * label)) w data w',
    RandomOverSampler_fit_sample rows w = (Return data, w') ->
    forall x, In x data -> In x rows.

(** A 3x3 matrix of counts. *)
Definition count_matrix (m : list (list Z)) : Prop :=
  length m = 3%nat /\
  Forall (fun row => length row = 3%nat /\ Forall (fun a => (0 <= a)%Z) row) m.

(** The effect of one pass of the loop of [computeConfusionMatrix] on its
    locals, given the trial's outcome. *)
Definition cm_step (st : cm_locals) (t : list label * list label) : cm_locals :=
  {| cm_count := cm_count st + 1;
     cm_matrix :=
       if (cm_count st =? 0)%Z then Some (trial_matrix t)
       else if (cm_count st >? 1)%Z
            then option_map (fun m => np_add m (trial_matrix t)) (cm_matrix st)
            else cm_matrix st |}.

(** Half an ulp of 1: the relative error of one rounding. *)
Definition unit_roundoff : Q := 1 # 9007199254740992.

(** [2^-51]: the tolerance on the sum of a normalized row (three roundings
    per cell: numerator, row sum, quotient). *)
Definition row_tolerance : Q := 1 # 2251799813685248.

(** [cs] is a prefix of [s] and [k] accepts the rest. *)
Fixpoint match_lit (cs s : list ascii) (k : list ascii -> bool) : bool :=
  match cs with
  | [] => k s
  | c :: cs' =>
      match s with
      | a :: s' => if Ascii.eqb a c then match_lit cs' s' k else false
      | [] => false
      end
  end.

(** [r] followed by the characters [cs], nested as the parser nests them. *)
Definition lits (r : regex) (cs : list ascii) : regex :=
  fold_left (fun r c => Cat r (Chr c)) cs r.



(** [list(range(start, start + n))] *)
Fixpoint range_from (start : Z) (n : nat) : list Z :=
  match n with
  | O => []
  | S n' => start :: range_from (start + 1) n'
  end.

(** A forest fitted for every size in [sizes], in order, each fit followed
    by one step of the progress bar; the last fit is the one kept. *)
Definition fit_each {W X Model} {FT : ForestTools W X Model}
    (sizes : list Z) (Xtrain : X) (Ytrain : list label)
    (RFC : option Model) : Py W (option Model) :=
  for_each sizes
    (fun n _ =>
       RFC ← forest_fit n Xtrain Ytrain;
       _ ← tqdm_update 1;
       mret (Some RFC))
    RFC.

(** The names that [leave_one_feat_out] gives its five groups, in the order
    of [dfs]. *)
Definition lofo_names : list string :=
  ["Toplogical Features"; "Dynamic Features"; "Gene expression and kcat";
   "Gene expression only"; "RECON1 Subsystem only"].

(** The label of a row with hazard ratio [hr] and Cox p-value [p], as a
    decision list: of the five assignments of [make_surv] the last one
    whose mask holds wins. *)
Definition surv_label (cox hr_up hr_low hr p : float64) : string :=
  if float_lt hr hr_up && float_gt hr hr_low then "NEUTRAL"
  else if float_le hr hr_low && float_gt p cox then "NEUTRAL"
  else if float_ge hr hr_up && float_gt p cox then "NEUTRAL"
  else if float_le hr hr_low && float_le p cox then "DOWNREG"
  else if float_ge hr hr_up && float_le p cox then "UPREG"
  else "".

(** ** Scripted collaborators

    Collaborators without randomness, for running the functions on concrete
    data: the data preparation replays a script of trials, the split cuts
    the rows after the first 70 percent, the oversampler adds nothing. *)
Module Script.

Definition world : Type := list (list label * list label).

Definition dp : DataPreparation world (list label) unit := {|
  processDataFromFile := fun _ _ _ w =>
    match w with
    | [] => (Raise (LibraryError "no more data"), [])
    | (Ytest, Ypred) :: w' => (Return ([], Ypred, [], Ytest), w')
    end
|}.

Definition clf : Classifier world (list label) unit := {|
  random_forest := fun Xtrain Ytrain Xtest Ytest =>
    mret (tt, Xtest, literal (1 # 2), literal (1 # 2))
|}.

Definition metrics : SklearnMetrics unit := {|
  cohen_kappa_score := fun _ _ => literal 1;
  f1_score_micro := fun _ _ => literal 1;
  matthews_corrcoef := fun _ _ => literal 1;
  classification_report := fun _ _ => tt
|}.

Definition column_label_eqb (a b : column_label) : bool :=
  match a, b with
  | Name x, Name y => String.eqb x y
  | Numbered i x, Numbered j y => (i =? j)%Z && String.eqb x y
  | _, _ => false
  end.

(** A table that keeps what is assigned to it, column by column; every
    entry of the report is 1. *)
Definition pandas : Pandas world (list (column_label * column_value))
                      (list float64) unit := {|
  pd_DataFrame := fun columns => map (fun c => (Name c, Array [])) columns;
  frame_setitem := fun df key value =>
    mret (List.filter (fun c => negb (column_label_eqb (fst c) key)) df
            ++ [(key, value)]);
  frame_getitem := fun df name =>
    match List.find (fun c => column_label_eqb (fst c) (Name name)) df with
    | Some (_, Array xs) => mret xs
    | Some (_, Scalar x) => mret [x]
    | None => raise (LibraryError "KeyError")
    end;
  frame_mean_rows := fun _ => [];
  report_loc := fun _ _ _ => mret [literal 1]
|}.

(** Statistics whose t-test reports the p-value [p]. *)
Definition stats (p : float64) : Statistics (list float64) := {|
  std := fun _ => literal 0;
  mean := fun _ => literal (1 # 2);
  ttest_1samp := fun _ _ => (literal 0, p)
|}.

Definition learning : Learning unit (Z * Z) := {|
  train_test_split := fun A B rows classes test_size =>
    let all := combine rows classes in
    let k := (length all * 7 / 10)%nat in
    mret (firstn k all, skipn k all);
  RandomOverSampler_fit_sample := fun A rows => mret rows;
  RandomForestClassifier_fit := fun trees feat _ _ => mret (trees, feat);
  rfc_predict := fun _ X => map (fun _ => C0) X;
  rfc_score := fun _ _ _ => literal 1;
  RobustScaler_fit_transform := fun X => X
|}.

(** Frames given by their columns; the rows are labelled by their
    positions, so that no Series has a label that is a name. *)
Definition frames : Frames unit (list (string * list float64))
                      (list float64) float64 := {|
  frame_pop := fun df item =>
    match List.find (fun c => String.eqb (fst c) item) df with
    | Some c => mret (snd c)
    | None => raise (LibraryError "KeyError")
    end;
  series_has_label := fun _ _ => false;
  series_iter_entry := fun _ _ => raise (LibraryError "KeyError");
  series_getitem_median := fun _ _ => raise (LibraryError "KeyError")
|}.

(** A correlation that is undefined for every input. *)
Definition correlation : Correlation unit float64 := {|
  pearsonr := fun _ _ => mret (NaN, NaN)
|}.

(** A loader that hands out one table: its column names, its rows and
    the classes of the rows. *)
Definition loading (columns : list string) (rows : list (list float64))
    (classes : list label)
    : DataLoading unit (list string * list (list float64)) unit := {|
  load_data := fun filename => mret ((columns, rows), split_dot_head filename);
  label_encode := fun raw => raw;
  prune_targets := fun raw _ _ => (raw, classes);
  raw_drop := fun raw _ => raw;
  robust_scaler := fun raw => snd raw;
  raw_columns := fun raw => fst raw
|}.

(** A row with twelve numeric columns. *)
Definition sample (cell : string) (c : label) : CellSample :=
  {| cs_genes := "g"; cs_cell_line := cell;
     cs_values := repeat (Finite 0) 12; cs_class := c |}.

Definition columns12 : list string :=
  ["f01"; "f02"; "f03"; "f04"; "f05"; "f06";
   "f07"; "f08"; "f09"; "f10"; "f11"; "f12"].

End Script.

(** Data for the examples. *)
Definition demo_script : Script.world :=
  [([C0; C0; C1], [C0; C1; C2]); ([C0; C1; C1], [C0; C1; C2])].

Definition demo_frame : list (string * list float64) :=
  [("EXPRESSION"%string, []);
   ("kcat"%string, [Finite 2; Finite 2; Finite 2]);
   ("flux"%string, [Finite 3; Finite 2; Finite 1])].

Definition demo_cells : list CellSample :=
  [Script.sample "HL-60(TB)" C0; Script.sample "K-562" C1;
   Script.sample "HL-60(TB)" C2; Script.sample "K-562" C0].

Definition melanoma_cells : list CellSample :=
  [Script.sample "SK-MEL-2" C0; Script.sample "SK-MEL-28" C1;
   Script.sample "K-562" C2; Script.sample "SK-MEL-5" C0].

(** A table of 140 columns, named by one character each, and four rows. *)
Definition demo_columns : list string :=
  map (fun n => String (ascii_of_nat (48 + n)) EmptyString) (seq 0 140).

Definition demo_rows : list (list float64) :=
  repeat (repeat (Finite 0) 140) 4.

Definition demo_surv_row : SurvRow :=
  {| sv_ID_NAME := "TP53"; sv_CANCER_TYPE := "Breast cancer";
     sv_HR := NaN; sv_COX := literal (1 # 100); sv_SURV := "" |}.

(* ===================================================================== *)
(** * Part II: properties                                                 *)
(* ===================================================================== *)

(** ** Running programs of [Py] *)

Section PyFacts.
Context {W : Type}.

Lemma bind_run {A B} (m : Py W A) (f : A -> Py W B) (w : W) :
  (m ≫= f) w =
  match m w with
  | (Return a, w') => f a w'
  | (Raise e, w') => (Raise e, w')
  end.
Proof. reflexivity. Qed.

Lemma ret_run {A} (a : A) (w : W) : (mret a : Py W A) w = (Return a, w).
Proof. reflexivity. Qed.

Lemma while_step {S} fuel (cond : S -> bool) (body : S -> Py W S) s w :
  while (Datatypes.S fuel) cond body s w =
  if cond s then
    match body s w with
    | (Return s', w') => while fuel cond body s' w'
    | (Raise e, w') => (Raise e, w')
    end
  else (Return s, w).
Proof. simpl. destruct (cond s); reflexivity. Qed.

Lemma repeat_py_length {A} (m : Py W A) (n : nat) : forall w l w',
  repeat_py n m w = (Return l, w') -> length l = n.
Proof.
  induction n as [|n IH]; intros w l w' H; cbn [repeat_py] in H.
  - inversion H. reflexivity.
  - rewrite bind_run in H. destruct (m w) as [[a|e] w1]; [|discriminate].
    rewrite bind_run in H.
    destruct (repeat_py n m w1) as [[l'|e] w2] eqn:E; [|discriminate].
    inversion H; subst. simpl. f_equal. eapply IH; eassumption.
Qed.
End PyFacts.

(** ** The float model on some doubles *)

Example round_double_third :
  round_double (1 # 3) = (6004799503160661 # 18014398509481984)%Q.
Proof. reflexivity. Qed.

Example round_double_tie_to_even :
  (round_double (inject_Z (2 ^ 53 + 1)) == inject_Z (2 ^ 53))%Q /\
  (round_double (inject_Z (2 ^ 53 + 3)) == inject_Z (2 ^ 53 + 4))%Q.
Proof. split; reflexivity. Qed.

Example normalize_example :
  normalize [[1; 1; 2]; [0; 0; 0]; [0; 4; 0]]%Z =
  [[Finite (4503599627370496 # 18014398509481984);
    Finite (4503599627370496 # 18014398509481984);
    Finite (4503599627370496 # 9007199254740992)];
   [NaN; NaN; NaN];
   [Finite 0; Finite (4503599627370496 # 4503599627370496); Finite 0]].
Proof. vm_compute. reflexivity. Qed.

(** ** The loop of [computeConfusionMatrix] *)

Section ConfusionMatrixLoop.
Context {W X Excl Model : Type}.
Context {DP : DataPreparation W X Excl} {CL : Classifier W X Model}.
Variables (filename target : string) (exclude : Excl).

(** Once a pass has run, [matrix] is bound, and the body is a trial
    followed by [cm_step]. *)
Lemma cm_body_run st w :
  (1 <= cm_count st -> is_Some (cm_matrix st))%Z ->
  cm_body filename target exclude st w =
  match cm_trial filename target exclude w with
  | (Return t, w') => (Return (cm_step st t), w')
  | (Raise e, w') => (Raise e, w')
  end.
Proof.
  intros Hinv. unfold cm_body, cm_trial. rewrite !bind_run.
  destruct (processDataFromFile filename target exclude w)
    as [[[[[Xtr Xte] Ytr] Yte]|e] w1]; [|reflexivity].
  rewrite !bind_run.
  destruct (random_forest Xtr Ytr Xte Yte w1) as [[[[[mdl Ypred] oob] cv]|e] w2];
    [|reflexivity].
  rewrite ret_run. unfold cm_step, trial_matrix. simpl fst; simpl snd.
  destruct (cm_count st =? 0)%Z eqn:E0.
  - reflexivity.
  - destruct (cm_count st >? 1)%Z eqn:E1.
    + destruct Hinv as [m Hm]; [lia|]. rewrite Hm. reflexivity.
    + reflexivity.
Qed.

Lemma cm_step_inv st t :
  (1 <= cm_count st -> is_Some (cm_matrix st))%Z -> (0 <= cm_count st)%Z ->
  (1 <= cm_count (cm_step st t) -> is_Some (cm_matrix (cm_step st t)))%Z.
Proof.
  intros Hinv H0 _. unfold cm_step; simpl.
  destruct (cm_count st =? 0)%Z eqn:E0; [eauto|].
  destruct Hinv as [m Hm]; [lia|]. rewrite Hm.
  destruct (cm_count st >? 1)%Z; simpl; eauto.
Qed.

(** With [n] passes left and fuel for them, the loop is [n] trials. *)
Lemma cm_while_run (n : nat) : forall fuel iterations st w,
  (n < fuel)%nat ->
  (cm_count st + Z.of_nat n = iterations + 1)%Z ->
  (0 <= cm_count st)%Z ->
  (1 <= cm_count st -> is_Some (cm_matrix st))%Z ->
  while fuel (fun st => (cm_count st <=? iterations)%Z)
    (cm_body filename target exclude) st w =
  match repeat_py n (cm_trial filename target exclude) w with
  | (Return ts, w') => (Return (fold_left cm_step ts st), w')
  | (Raise e, w') => (Raise e, w')
  end.
Proof.
  induction n as [|n IH]; intros fuel iterations st w Hf Hc H0 Hinv;
    (destruct fuel as [|fuel]; [lia|]); rewrite while_step.
  - replace (cm_count st <=? iterations)%Z with false by lia. reflexivity.
  - replace (cm_count st <=? iterations)%Z with true by lia.
    rewrite cm_body_run by assumption.
    cbn [repeat_py]. rewrite bind_run.
    destruct (cm_trial filename target exclude w) as [[t|e] w1]; [|reflexivity].
    rewrite (IH fuel iterations (cm_step st t) w1);
      [| lia | simpl; lia | simpl; lia | apply cm_step_inv; assumption].
    rewrite bind_run.
    destruct (repeat_py n (cm_trial filename target exclude) w1) as [[ts|e] w2];
      reflexivity.
Qed.

Lemma fold_cm_step_count ts : forall st,
  cm_count (fold_left cm_step ts st) = (cm_count st + Z.of_nat (length ts))%Z.
Proof.
  induction ts as [|t ts IH]; intros st; simpl fold_left; simpl length.
  - lia.
  - rewrite IH. simpl. lia.
Qed.

(** From the third pass on, every trial is added. *)
Lemma fold_cm_step_late ts : forall st m,
  (2 <= cm_count st)%Z -> cm_matrix st = Some m ->
  cm_matrix (fold_left cm_step ts st) =
  Some (fold_left (fun m t => np_add m (trial_matrix t)) ts m).
Proof.
  induction ts as [|t ts IH]; intros st m H2 Hm; simpl fold_left.
  - assumption.
  - apply IH.
    + simpl. lia.
    + unfold cm_step; simpl. rewrite Hm.
      replace (cm_count st =? 0)%Z with false by lia.
      replace (cm_count st >? 1)%Z with true by lia. reflexivity.
Qed.

Lemma fold_cm_step_init ts :
  fold_left cm_step ts {| cm_count := 0; cm_matrix := None |} =
  {| cm_count := Z.of_nat (length ts); cm_matrix := accumulated ts |}.
Proof.
  pose proof (fold_cm_step_count ts {| cm_count := 0; cm_matrix := None |}) as Hc.
  simpl in Hc.
  assert (Hm : cm_matrix (fold_left cm_step ts {| cm_count := 0; cm_matrix := None |})
               = accumulated ts).
  { destruct ts as [|t0 [|t1 rest]]; try reflexivity.
    simpl fold_left. unfold accumulated. simpl tl.
    apply fold_cm_step_late; reflexivity. }
  destruct (fold_left cm_step ts _) as [c m]. simpl in *. subst. f_equal.
Qed.

(** The loop runs [iterations + 1] trials; the bound of the model is never
    reached. *)
Lemma cm_loop_run (N : nat) (w : W) :
  cm_loop filename target exclude (Z.of_nat N) w =
  match repeat_py (S N) (cm_trial filename target exclude) w with
  | (Return ts, w') =>
      (Return {| cm_count := Z.of_nat N + 1; cm_matrix := accumulated ts |}, w')
  | (Raise e, w') => (Raise e, w')
  end.
Proof.
  unfold cm_loop.
  rewrite (cm_while_run (S N)); [| lia | simpl; lia | simpl; lia | simpl; lia].
  destruct (repeat_py (S N) _ w) as [[ts|e] w'] eqn:E; [|reflexivity].
  rewrite fold_cm_step_init. apply repeat_py_length in E. rewrite E.
  repeat f_equal. lia.
Qed.

(** With a negative [iterations] the body never runs. *)
Lemma cm_loop_negative (iterations : Z) (w : W) :
  (iterations < 0)%Z ->
  cm_loop filename target exclude iterations w =
  (Return {| cm_count := 0; cm_matrix := None |}, w).
Proof.
  intros Hneg. unfold cm_loop. rewrite while_step. simpl cm_count.
  replace (0 <=? iterations)%Z with false by lia. reflexivity.
Qed.

(** What a normal return of [computeConfusionMatrix] means. *)
Lemma computeConfusionMatrix_returns iterations w matrix normalizedMatrix w' :
  computeConfusionMatrix filename target exclude iterations w
    = (Return (matrix, normalizedMatrix), w') ->
  (0 <= iterations)%Z /\
  exists ts,
    repeat_py (S (Z.to_nat iterations)) (cm_trial filename target exclude) w
      = (Return ts, w') /\
    accumulated ts = Some matrix /\
    normalizedMatrix = normalize matrix.
Proof.
  unfold computeConfusionMatrix. rewrite bind_run.
  destruct (Z.lt_ge_cases iterations 0) as [Hneg|Hpos].
  - rewrite cm_loop_negative by exact Hneg. discriminate.
  - replace iterations with (Z.of_nat (Z.to_nat iterations)) at 1 by lia.
    rewrite cm_loop_run.
    destruct (repeat_py _ _ w) as [[ts|e] w1] eqn:E; [|discriminate].
    simpl cm_matrix. destruct (accumulated ts) as [m|] eqn:Em; [|discriminate].
    intros [= <- <- <-]. split; [lia|]. exists ts. auto.
Qed.
End ConfusionMatrixLoop.

(** ** The loop of [Summarize] *)

Section SummarizeLoop.
Context {W X Excl Model F Sr Rep : Type}.
Context {DP : DataPreparation W X Excl} {CL : Classifier W X Model}.
Context {SK : SklearnMetrics Rep} {PD : Pandas W F Sr Rep}.
Context {ST : Statistics Sr}.
Variables (filename target : string) (exclude : Excl).

Lemma sm_body_run st w :
  sm_body filename target exclude st w =
  match sm_trial filename target exclude (sm_count st) (sm_Summary st) w with
  | (Return Summary, w') =>
      (Return {| sm_count := sm_count st + 1; sm_Summary := Summary |}, w')
  | (Raise e, w') => (Raise e, w')
  end.
Proof.
  unfold sm_body. rewrite bind_run.
  destruct (sm_trial filename target exclude (sm_count st) (sm_Summary st) w)
    as [[Summary|e] w']; reflexivity.
Qed.

Lemma sm_while_run (n : nat) : forall fuel iterations st w,
  (n < fuel)%nat ->
  (sm_count st + Z.of_nat n = iterations + 1)%Z ->
  while fuel (fun st => (sm_count st <=? iterations)%Z)
    (sm_body filename target exclude) st w =
  match numbered_py n (sm_count st) (sm_trial filename target exclude)
          (sm_Summary st) w with
  | (Return Summary, w') =>
      (Return {| sm_count := iterations + 1; sm_Summary := Summary |}, w')
  | (Raise e, w') => (Raise e, w')
  end.
Proof.
  induction n as [|n IH]; intros fuel iterations st w Hf Hc;
    (destruct fuel as [|fuel]; [lia|]); rewrite while_step.
  - replace (sm_count st <=? iterations)%Z with false by lia.
    cbn [numbered_py]. rewrite ret_run. destruct st as [c Summary].
    cbn [sm_count sm_Summary] in *. do 2 f_equal. f_equal. lia.
  - replace (sm_count st <=? iterations)%Z with true by lia.
    rewrite sm_body_run. cbn [numbered_py]. rewrite bind_run.
    destruct (sm_trial filename target exclude (sm_count st) (sm_Summary st) w)
      as [[Summary|e] w1]; [|reflexivity].
    rewrite (IH fuel iterations); [reflexivity | lia |].
    cbn [sm_count]. lia.
Qed.

(** The loop is its trials, numbered from 0: [iterations + 1] of them, and
    none for a negative [iterations]. *)
Lemma sm_loop_run (iterations : Z) (w : W) :
  sm_loop filename target exclude iterations w =
  match numbered_py (Z.to_nat (iterations + 1)) 0
          (sm_trial filename target exclude) (pd_DataFrame summary_columns) w with
  | (Return Summary, w') =>
      (Return {| sm_count := Z.max 0 (iterations + 1); sm_Summary := Summary |}, w')
  | (Raise e, w') => (Raise e, w')
  end.
Proof.
  unfold sm_loop. destruct (Z.lt_ge_cases iterations 0) as [Hneg|Hpos].
  - rewrite while_step. cbn [sm_count].
    replace (0 <=? iterations)%Z with false by lia.
    replace (Z.to_nat (iterations + 1)) with 0%nat by lia.
    cbn [numbered_py]. rewrite ret_run.
    replace (Z.max 0 (iterations + 1)) with 0%Z by lia. reflexivity.
  - rewrite (sm_while_run (Z.to_nat (iterations + 1))); [| lia | cbn [sm_count]; lia].
    cbn [sm_count sm_Summary].
    replace (Z.max 0 (iterations + 1)) with (iterations + 1)%Z by lia.
    reflexivity.
Qed.

Lemma Summarize_run (iterations : Z) (w : W) :
  Summarize filename target exclude iterations w =
  (Summary ← numbered_py (Z.to_nat (iterations + 1)) 0
               (sm_trial filename target exclude) (pd_DataFrame summary_columns);
   sm_reduce filename Summary) w.
Proof.
  unfold Summarize. rewrite !bind_run, sm_loop_run.
  destruct (numbered_py _ _ _ _ w) as [[Summary|e] w']; reflexivity.
Qed.

(** The reduction stops at line 116: axis 1 is no axis of a Series. *)
Lemma sm_reduce_run (Summary : F) (w : W) :
  sm_reduce filename Summary w =
  (_ ← frame_getitem Summary "Accuracy";
   raise (ValueError "No axis of that number for object type Series")) w.
Proof.
  unfold sm_reduce. rewrite !bind_run.
  destruct (frame_getitem Summary "Accuracy" w) as [[Accuracy|e] w'];
    reflexivity.
Qed.

(** C1.  With iteration count [N], both trial aggregators run [N + 1]
    train/evaluate trials, not [N]: [computeConfusionMatrix] is the
    program that runs [N + 1] trials and returns what [accumulated]
    keeps of them, [Summarize] the program that runs the [N + 1] trials
    numbered 0 to [N] on its frame and reduces the frame they leave. *)
Theorem trial_loops_run_one_more_trial (N : nat) (w : W) :
  computeConfusionMatrix filename target exclude (Z.of_nat N) w =
    (ts ← repeat_py (S N) (cm_trial filename target exclude);
     matrix ← read_local "matrix" (accumulated ts);
     mret (matrix, normalize matrix)) w
  /\
  Summarize filename target exclude (Z.of_nat N) w =
    (Summary ← numbered_py (S N) 0 (sm_trial filename target exclude)
                 (pd_DataFrame summary_columns);
     sm_reduce filename Summary) w.
Proof.
  split.
  - unfold computeConfusionMatrix. rewrite !bind_run, cm_loop_run.
    destruct (repeat_py (S N) _ w) as [[ts|e] w']; reflexivity.
  - rewrite Summarize_run.
    replace (Z.to_nat (Z.of_nat N + 1)) with (S N) by lia. reflexivity.
Qed.
End SummarizeLoop.

(** With [iterations = 0] one trial runs and its matrix is returned. *)
Example zero_iterations_one_trial :
  exists normalizedMatrix,
    computeConfusionMatrix (DP := Script.dp) (CL := Script.clf)
      "BRCA.csv" "EXPRESSION" tt 0 demo_script
    = (Return ([[1; 1; 0]; [0; 0; 1]; [0; 0; 0]]%Z, normalizedMatrix),
       tl demo_script).
Proof. eexists. vm_compute. reflexivity. Qed.

(** With [iterations = 1] a second trial is asked for: a script of one
    trial runs out, a script of two is used up. *)
Example one_iteration_two_trials :
  fst (computeConfusionMatrix (DP := Script.dp) (CL := Script.clf)
         "BRCA.csv" "EXPRESSION" tt 1 (firstn 1 demo_script))
    = Raise (LibraryError "no more data") /\
  snd (computeConfusionMatrix (DP := Script.dp) (CL := Script.clf)
         "BRCA.csv" "EXPRESSION" tt 1 demo_script) = [].
Proof. split; vm_compute; reflexivity. Qed.

(** C2.  The second trial is not accumulated: after three trials, each with
    one test example per class, every row of the accumulated matrix sums to
    2 while the trials had 3 test examples of each class. *)
Theorem second_trial_left_out :
  let t := ([C0; C1; C2], [C0; C1; C2]) in
  let trials : Script.world := [t; t; t] in
  exists matrix normalizedMatrix,
    computeConfusionMatrix (DP := Script.dp) (CL := Script.clf)
      "BRCA.csv" "EXPRESSION" tt 2 trials
      = (Return (matrix, normalizedMatrix), []) /\
    row_sums matrix = [2; 2; 2]%Z /\
    map (fun c => true_count c trials) class_labels = [3; 3; 3]%Z.
Proof.
  do 2 eexists. split; [vm_compute; reflexivity|]. split; reflexivity.
Qed.

(** C3.  The accumulated matrix depends on the order of the trials: the
    same three trials in two orders give different matrices, because the
    trial in second position is dropped. *)
Theorem accumulation_depends_on_order :
  let a := ([C0; C1; C2], [C0; C1; C2]) in
  let b := ([C0; C1; C2], [C1; C1; C2]) in
  let c := ([C0; C1; C2], [C0; C2; C2]) in
  Permutation [a; b; c] [b; a; c] /\
  exists mA nA mB nB,
    computeConfusionMatrix (DP := Script.dp) (CL := Script.clf)
      "BRCA.csv" "EXPRESSION" tt 2 [a; b; c] = (Return (mA, nA), []) /\
    computeConfusionMatrix (DP := Script.dp) (CL := Script.clf)
      "BRCA.csv" "EXPRESSION" tt 2 [b; a; c] = (Return (mB, nB), []) /\
    mA <> mB.
Proof.
  split; [apply perm_swap|].
  do 4 eexists. split; [vm_compute; reflexivity|].
  split; [vm_compute; reflexivity|]. discriminate.
Qed.

(** ** Rounding to the nearest double *)

Section Rounding.
Local Open Scope Q_scope.

Lemma half_even_close (y : Q) :
  y - (1 # 2) <= inject_Z (half_even y) <= y + (1 # 2).
Proof.
  unfold half_even.
  pose proof (Qfloor_le y) as Hlo. pose proof (Qlt_floor y) as Hhi.
  rewrite inject_Z_plus in Hhi. change (inject_Z 1) with 1 in Hhi.
  destruct (Qcompare_spec (y - inject_Z (Qfloor y)) (1 # 2)) as [E|E|E].
  - destruct (Z.even (Qfloor y)).
    + lra.
    + rewrite inject_Z_plus. change (inject_Z 1) with 1. lra.
  - lra.
  - rewrite inject_Z_plus. change (inject_Z 1) with 1. lra.
Qed.

Lemma two_pow_pos (k : Z) : 0 < 2 ^ k.
Proof. apply Qpower_0_lt. reflexivity. Qed.

Lemma two_pow_add (a b : Z) : 2 ^ (a + b) == 2 ^ a * 2 ^ b.
Proof. apply Qpower_plus. discriminate. Qed.

(** The binade found from the bit lengths starts below [x]. *)
Lemma binade_le (x : Q) : 0 < x -> 2 ^ binade x <= x.
Proof.
  intros Hx. unfold binade.
  destruct (Qle_bool (2 ^ (Z.log2 (Qnum x) - Z.log2 (Z.pos (Qden x)))) x) eqn:E.
  - apply Qle_bool_iff. exact E.
  - clear E. destruct x as [n d]. simpl Qnum; simpl Qden.
    assert (Hn : (0 < n)%Z) by (unfold Qlt in Hx; simpl in Hx; lia).
    pose proof (Z.log2_spec n Hn) as [Hn1 _].
    pose proof (Z.log2_spec (Z.pos d) (Pos2Z.is_pos d)) as [_ Hd2].
    pose proof (Z.log2_nonneg n) as Hln.
    pose proof (Z.log2_nonneg (Z.pos d)) as Hld.
    set (ln := Z.log2 n) in *. set (ld := Z.log2 (Z.pos d)) in *.
    replace (ln - ld - 1)%Z with (ln + - (ld + 1))%Z by lia.
    rewrite two_pow_add, Qpower_opp.
    rewrite <- (Zpower_Qpower 2 ln) by lia.
    rewrite <- (Zpower_Qpower 2 (ld + 1)) by lia.
    rewrite (Qmake_Qdiv n d).
    assert (H1 : inject_Z (2 ^ ln) <= inject_Z n) by (rewrite <- Zle_Qle; exact Hn1).
    assert (H2 : inject_Z (Z.pos d) <= inject_Z (2 ^ (ld + 1))).
    { rewrite <- Zle_Qle. replace (ld + 1)%Z with (Z.succ ld) by lia. lia. }
    assert (H3 : 0 < inject_Z (Z.pos d)) by (rewrite <- (Zlt_Qlt 0); lia).
    assert (H4 : 0 < inject_Z (2 ^ ln)).
    { rewrite <- (Zlt_Qlt 0). apply Z.pow_pos_nonneg; lia. }
    set (A := inject_Z (2 ^ ln)) in *. set (B := inject_Z (2 ^ (ld + 1))) in *.
    set (N := inject_Z n) in *. set (D := inject_Z (Z.pos d)) in *.
    unfold Qdiv.
    assert (HB : 0 < B) by lra.
    assert (HiD : 0 < / D) by (apply Qinv_lt_0_compat; exact H3).
    assert (HBD : / B <= / D).
    { apply Qle_shift_inv_l; [exact H3|].
      rewrite Qmult_comm. change (D / B <= 1).
      apply Qle_shift_div_r; [exact HB|]. lra. }
    apply Qle_trans with (A * / D).
    + apply Qmult_le_l; [exact H4 | exact HBD].
    + apply Qmult_le_r; [exact HiD | exact H1].
Qed.

(** One rounding moves a positive value by at most half an ulp. *)
Lemma round_pos_close (x : Q) :
  0 < x ->
  x * (1 - unit_roundoff) <= round_pos x <= x * (1 + unit_roundoff).
Proof.
  intros Hx. unfold round_pos.
  pose proof (binade_le x Hx) as HE.
  set (e := binade x) in *.
  pose proof (half_even_close (x * 2 ^ (52 - e))) as Hm.
  set (m := inject_Z (half_even (x * 2 ^ (52 - e)))) in *.
  assert (HPR : 2 ^ (52 - e) * 2 ^ (e - 52) == 1).
  { rewrite <- two_pow_add. replace (52 - e + (e - 52))%Z with 0%Z by lia.
    reflexivity. }
  assert (HR : 2 ^ (e - 52) == 2 ^ e * (1 # 4503599627370496)).
  { replace (e - 52)%Z with (e + -52)%Z by lia. rewrite two_pow_add.
    reflexivity. }
  pose proof (two_pow_pos (e - 52)) as HRpos.
  pose proof (two_pow_pos e) as HEpos.
  set (P := 2 ^ (52 - e)) in *. set (R := 2 ^ (e - 52)) in *.
  set (E := 2 ^ e) in *.
  destruct Hm as [Hlo Hhi].
  assert (Hlo' : (x * P - (1 # 2)) * R <= m * R)
    by (apply Qmult_le_compat_r; [exact Hlo | lra]).
  assert (Hhi' : m * R <= (x * P + (1 # 2)) * R)
    by (apply Qmult_le_compat_r; [exact Hhi | lra]).
  assert (Hx1 : (x * P - (1 # 2)) * R == x - E * (1 # 9007199254740992)).
  { transitivity (x * (P * R) - (1 # 2) * R); [ring|].
    rewrite HPR, HR. ring. }
  assert (Hx2 : (x * P + (1 # 2)) * R == x + E * (1 # 9007199254740992)).
  { transitivity (x * (P * R) + (1 # 2) * R); [ring|].
    rewrite HPR, HR. ring. }
  rewrite Hx1 in Hlo'. rewrite Hx2 in Hhi'.
  unfold unit_roundoff.
  assert (HEx : E * (1 # 9007199254740992) <= x * (1 # 9007199254740992))
    by (apply Qmult_le_compat_r; [exact HE | discriminate]).
  split; lra.
Qed.

Lemma round_double_close (x : Q) :
  0 <= x ->
  x * (1 - unit_roundoff) <= round_double x <= x * (1 + unit_roundoff).
Proof.
  intros Hx. unfold round_double.
  destruct x as [n d]. simpl Qnum. destruct n as [|p|p].
  - unfold unit_roundoff. split; unfold Qle; simpl; lia.
  - apply round_pos_close. reflexivity.
  - exfalso. unfold Qle in Hx. simpl in Hx. lia.
Qed.

(** Rounding the numerator, the denominator and the quotient moves the
    quotient by at most [row_tolerance], relatively. *)
Lemma quotient_close (A S a' s' c : Q) :
  0 <= A -> 0 < S ->
  A * (1 - unit_roundoff) <= a' <= A * (1 + unit_roundoff) ->
  S * (1 - unit_roundoff) <= s' <= S * (1 + unit_roundoff) ->
  (a' / s') * (1 - unit_roundoff) <= c <= (a' / s') * (1 + unit_roundoff) ->
  (A / S) * (1 - row_tolerance) <= c <= (A / S) * (1 + row_tolerance).
Proof.
  unfold unit_roundoff, row_tolerance. intros HA HS Ha Hs Hc.
  assert (Hs' : 0 < s') by lra.
  set (q := a' / s') in *. set (r := A / S).
  assert (Hq : q * s' == a') by (unfold q; field; lra).
  assert (Hr : r * S == A) by (unfold r; field; lra).
  assert (Hq0 : 0 <= q).
  { unfold q. apply Qle_shift_div_l; [exact Hs'|]. lra. }
  assert (Hr0 : 0 <= r).
  { unfold r. apply Qle_shift_div_l; [exact HS|]. lra. }
  assert (H1 : q * (S * (1 - (1 # 9007199254740992))) <= q * s').
  { rewrite !(Qmult_comm q). apply Qmult_le_compat_r; lra. }
  assert (H2 : q * s' <= q * (S * (1 + (1 # 9007199254740992)))).
  { rewrite !(Qmult_comm q). apply Qmult_le_compat_r; lra. }
  assert (H3 : S * (q * (1 - (1 # 9007199254740992)))
               <= S * (r * (1 + (1 # 9007199254740992)))).
  { apply Qle_trans with (q * s'); [|rewrite Hq].
    - setoid_replace (S * (q * (1 - (1 # 9007199254740992))))
        with (q * (S * (1 - (1 # 9007199254740992)))) using relation Qeq by ring.
      exact H1.
    - setoid_replace (S * (r * (1 + (1 # 9007199254740992))))
        with ((r * S) * (1 + (1 # 9007199254740992))) using relation Qeq by ring.
      rewrite Hr. lra. }
  assert (H4 : S * (r * (1 - (1 # 9007199254740992)))
               <= S * (q * (1 + (1 # 9007199254740992)))).
  { apply Qle_trans with (q * s'); [rewrite Hq|].
    - setoid_replace (S * (r * (1 - (1 # 9007199254740992))))
        with ((r * S) * (1 - (1 # 9007199254740992))) using relation Qeq by ring.
      rewrite Hr. lra.
    - setoid_replace (S * (q * (1 + (1 # 9007199254740992))))
        with (q * (S * (1 + (1 # 9007199254740992)))) using relation Qeq by ring.
      exact H2. }
  apply Qmult_le_l in H3; [|exact HS]. apply Qmult_le_l in H4; [|exact HS].
  split; lra.
Qed.

(** A count divided by a positive row sum. *)
Lemma cell_close (a s : Z) :
  (0 <= a)%Z -> (0 < s)%Z ->
  exists c : Q,
    float_div (float_of_int a) (float_of_int s) = Finite c /\
    (inject_Z a / inject_Z s) * (1 - row_tolerance) <= c
      <= (inject_Z a / inject_Z s) * (1 + row_tolerance).
Proof.
  intros Ha Hs.
  assert (HA : 0 <= inject_Z a) by (rewrite <- (Zle_Qle 0); exact Ha).
  assert (HS : 0 < inject_Z s) by (rewrite <- (Zlt_Qlt 0); exact Hs).
  pose proof (round_double_close (inject_Z a) HA) as Ha'.
  pose proof (round_double_close (inject_Z s) (Qlt_le_weak _ _ HS)) as Hs'.
  assert (Hs0 : 0 < round_double (inject_Z s)).
  { unfold unit_roundoff in Hs'. lra. }
  assert (Hq0 : 0 <= round_double (inject_Z a) / round_double (inject_Z s)).
  { apply Qle_shift_div_l; [exact Hs0|]. unfold unit_roundoff in Ha'. lra. }
  pose proof (round_double_close _ Hq0) as Hc.
  exists (round_double (round_double (inject_Z a) / round_double (inject_Z s))).
  split.
  - unfold float_of_int, float_div.
    destruct (Qeq_bool (round_double (inject_Z s)) 0) eqn:E; [|reflexivity].
    apply Qeq_bool_iff in E. lra.
  - eapply quotient_close; eassumption.
Qed.

(** A row of counts with a nonzero sum: three finite cells that sum to 1
    within the tolerance. *)
Lemma row_close (a0 a1 a2 : Z) :
  (0 <= a0)%Z -> (0 <= a1)%Z -> (0 <= a2)%Z -> (a0 + a1 + a2 <> 0)%Z ->
  exists q0 q1 q2 : Q,
    map (fun a => float_div (float_of_int a) (float_of_int (a0 + a1 + a2)))
      [a0; a1; a2] = [Finite q0; Finite q1; Finite q2] /\
    Qabs (q0 + q1 + q2 - 1) <= row_tolerance.
Proof.
  intros H0 H1 H2 Hs.
  assert (Hpos : (0 < a0 + a1 + a2)%Z) by lia.
  destruct (cell_close a0 _ H0 Hpos) as (q0 & E0 & B0).
  destruct (cell_close a1 _ H1 Hpos) as (q1 & E1 & B1).
  destruct (cell_close a2 _ H2 Hpos) as (q2 & E2 & B2).
  exists q0, q1, q2. split.
  - cbn [map]. rewrite E0, E1, E2. reflexivity.
  - assert (HS : 0 < inject_Z (a0 + a1 + a2))
      by (rewrite <- (Zlt_Qlt 0); exact Hpos).
    assert (Hsum : inject_Z a0 / inject_Z (a0 + a1 + a2)
                   + inject_Z a1 / inject_Z (a0 + a1 + a2)
                   + inject_Z a2 / inject_Z (a0 + a1 + a2) == 1).
    { rewrite !inject_Z_plus in *. field. lra. }
    assert (R0 : 0 <= inject_Z a0 / inject_Z (a0 + a1 + a2)).
    { apply Qle_shift_div_l; [exact HS|].
      rewrite Qmult_0_l, <- (Zle_Qle 0). exact H0. }
    assert (R1 : 0 <= inject_Z a1 / inject_Z (a0 + a1 + a2)).
    { apply Qle_shift_div_l; [exact HS|].
      rewrite Qmult_0_l, <- (Zle_Qle 0). exact H1. }
    assert (R2 : 0 <= inject_Z a2 / inject_Z (a0 + a1 + a2)).
    { apply Qle_shift_div_l; [exact HS|].
      rewrite Qmult_0_l, <- (Zle_Qle 0). exact H2. }
    set (r0 := inject_Z a0 / inject_Z (a0 + a1 + a2)) in *.
    set (r1 := inject_Z a1 / inject_Z (a0 + a1 + a2)) in *.
    set (r2 := inject_Z a2 / inject_Z (a0 + a1 + a2)) in *.
    apply Qabs_Qle_condition. unfold row_tolerance in *. split; lra.
Qed.

(** A row of counts with sum zero: [0.0 / 0.0] in every cell. *)
Lemma row_nan (a0 a1 a2 : Z) :
  (0 <= a0)%Z -> (0 <= a1)%Z -> (0 <= a2)%Z -> (a0 + a1 + a2 = 0)%Z ->
  map (fun a => float_div (float_of_int a) (float_of_int (a0 + a1 + a2)))
    [a0; a1; a2] = [NaN; NaN; NaN].
Proof.
  intros H0 H1 H2 Hs.
  assert (a0 = 0%Z) by lia. assert (a1 = 0%Z) by lia. assert (a2 = 0%Z) by lia.
  subst. reflexivity.
Qed.
End Rounding.

(** ** Accumulated matrices are 3x3 matrices of counts *)

Lemma count_cell_nonneg t p Ytest Ypred : (0 <= count_cell t p Ytest Ypred)%Z.
Proof. unfold count_cell. lia. Qed.

Lemma confusion_matrix_counts Ytest Ypred :
  count_matrix (confusion_matrix Ytest Ypred).
Proof.
  unfold count_matrix, confusion_matrix, class_labels. simpl. split; [reflexivity|].
  repeat constructor; apply count_cell_nonneg.
Qed.

Lemma count_matrix_inv m :
  count_matrix m ->
  exists a b c d e f g h i : Z,
    m = [[a; b; c]; [d; e; f]; [g; h; i]] /\
    (0 <= a /\ 0 <= b /\ 0 <= c /\ 0 <= d /\ 0 <= e /\ 0 <= f /\
     0 <= g /\ 0 <= h /\ 0 <= i)%Z.
Proof.
  intros [Hl Hr].
  destruct m as [|r0 [|r1 [|r2 [|]]]]; try discriminate.
  inversion Hr as [|? ? [L0 F0] Hr1]; subst.
  inversion Hr1 as [|? ? [L1 F1] Hr2]; subst.
  inversion Hr2 as [|? ? [L2 F2] _]; subst.
  destruct r0 as [|a [|b [|c [|]]]]; try discriminate.
  destruct r1 as [|d [|e [|f [|]]]]; try discriminate.
  destruct r2 as [|g [|h [|i [|]]]]; try discriminate.
  exists a, b, c, d, e, f, g, h, i. split; [reflexivity|].
  repeat match goal with
         | H : Forall _ (_ :: _) |- _ => inversion H; clear H; subst
         end.
  repeat split; assumption.
Qed.

Lemma np_add_counts A B :
  count_matrix A -> count_matrix B -> count_matrix (np_add A B).
Proof.
  intros HA HB.
  destruct (count_matrix_inv A HA) as (a & b & c & d & e & f & g & h & i & -> & ?).
  destruct (count_matrix_inv B HB)
    as (a' & b' & c' & d' & e' & f' & g' & h' & i' & -> & ?).
  unfold count_matrix, np_add. simpl. split; [reflexivity|].
  repeat constructor; lia.
Qed.

(** Every cell of the accumulated matrix is non-negative. *)
Lemma accumulated_counts ts m : accumulated ts = Some m -> count_matrix m.
Proof.
  destruct ts as [|t0 rest]; [discriminate|]. simpl. intros [= <-].
  generalize (confusion_matrix_counts (fst t0) (snd t0)).
  fold (trial_matrix t0). generalize (trial_matrix t0) as m0.
  induction (tl rest) as [|t l IH]; intros m0 Hm0; simpl.
  - exact Hm0.
  - apply IH. apply np_add_counts; [exact Hm0|]. apply confusion_matrix_counts.
Qed.

(** ** Row sums and total of the accumulated matrix *)

Lemma label_eqb_eq a b : label_eqb a b = true <-> a = b.
Proof. destruct a, b; simpl; split; congruence. Qed.






Lemma true_count_cons c t ts :
  true_count c (t :: ts) = (true_count c [t] + true_count c ts)%Z.
Proof. unfold true_count, sum_Z. simpl. lia. Qed.









(** ** The normalized matrix *)

Section Normalization.
Context {W X Excl Model : Type}.
Context {DP : DataPreparation W X Excl} {CL : Classifier W X Model}.
Variables (filename target : string) (exclude : Excl).

(** C4.  When [computeConfusionMatrix] returns, every row of the
    normalized matrix is the row of the accumulated matrix divided by its
    sum; a row with nonzero sum has three finite cells that sum to 1
    within [row_tolerance], a row with sum zero has NaN in every cell. *)
Theorem normalized_rows iterations w matrix normalizedMatrix w' :
  computeConfusionMatrix filename target exclude iterations w
    = (Return (matrix, normalizedMatrix), w') ->
  forall (i : nat) (row : list Z),
    matrix !! i = Some row ->
    normalizedMatrix !! i =
      Some (map (fun a => float_div (float_of_int a) (float_of_int (sum_Z row)))
              row) /\
    (sum_Z row <> 0%Z ->
       exists q0 q1 q2 : Q,
         normalizedMatrix !! i = Some [Finite q0; Finite q1; Finite q2] /\
         (Qabs (q0 + q1 + q2 - 1) <= row_tolerance)%Q) /\
    (sum_Z row = 0%Z -> normalizedMatrix !! i = Some [NaN; NaN; NaN]).
Proof.
  intros Hrun i row Hrow.
  apply computeConfusionMatrix_returns in Hrun as (_ & ts & _ & Hacc & ->).
  apply accumulated_counts, count_matrix_inv in Hacc
    as (a & b & c & d & e & f & g & h & k & -> & Hnn).
  assert (Hi : normalize [[a; b; c]; [d; e; f]; [g; h; k]] !! i =
               Some (map (fun x => float_div (float_of_int x)
                                     (float_of_int (sum_Z row))) row)).
  { destruct i as [|[|[|i]]]; simpl in Hrow; try discriminate;
      injection Hrow as <-; reflexivity. }
  split; [exact Hi|]. rewrite Hi. clear Hi.
  assert (Hcases : exists a0 a1 a2, row = [a0; a1; a2] /\
                     (0 <= a0)%Z /\ (0 <= a1)%Z /\ (0 <= a2)%Z).
  { destruct i as [|[|[|i]]]; simpl in Hrow; try discriminate;
      injection Hrow as <-; do 3 eexists; repeat split; lia. }
  destruct Hcases as (a0 & a1 & a2 & -> & H0 & H1 & H2).
  assert (Hs : sum_Z [a0; a1; a2] = (a0 + a1 + a2)%Z)
    by (unfold sum_Z; simpl; lia).
  rewrite Hs. split.
  - intros Hne.
    destruct (row_close a0 a1 a2 H0 H1 H2 Hne) as (q0 & q1 & q2 & E & B).
    exists q0, q1, q2. rewrite E. auto.
  - intros Hz. rewrite (row_nan a0 a1 a2 H0 H1 H2 Hz). reflexivity.
Qed.
End Normalization.

(** ** The reported p-value *)

Lemma float_le_not_lt (a b : float64) :
  float_le a b = true -> float_lt b a = false.
Proof.
  destruct a as [| | |a], b as [| | |b]; simpl; try congruence.
  unfold Qlt_bool. intros ->. reflexivity.
Qed.

Section PValue.
Context {W X Excl Model F Sr Rep : Type}.
Context {DP : DataPreparation W X Excl} {CL : Classifier W X Model}.
Context {SK : SklearnMetrics Rep} {PD : Pandas W F Sr Rep}.
Context {ST : Statistics Sr}.
Variables (filename target : string) (exclude : Excl).

(** C5.  [Summarize] does not get as far as a p-value.  For every
    iteration count and every outcome of the trials, the call is the
    trials followed by the ValueError of line 116, where the Series
    [Summary['Accuracy']] is asked for its standard deviation along axis
    1: the t-test of line 118 and the floor of lines 119-120 are never
    reached, and the function returns no summary, with a floored p-value
    or any other. *)
Theorem summarize_raises_before_pvalue (iterations : Z) (w : W) :
  Summarize filename target exclude iterations w =
    (Summary ← numbered_py (Z.to_nat (iterations + 1)) 0
                 (sm_trial filename target exclude)
                 (pd_DataFrame summary_columns);
     _ ← frame_getitem Summary "Accuracy";
     raise (ValueError "No axis of that number for object type Series")) w
  /\
  forall s w', Summarize filename target exclude iterations w <> (Return s, w').
Proof.
  assert (Hrun :
    Summarize filename target exclude iterations w =
    (Summary ← numbered_py (Z.to_nat (iterations + 1)) 0
                 (sm_trial filename target exclude)
                 (pd_DataFrame summary_columns);
     _ ← frame_getitem Summary "Accuracy";
     raise (ValueError "No axis of that number for object type Series")) w).
  { rewrite Summarize_run, !bind_run.
    destruct (numbered_py _ _ _ _ w) as [[Summary|e] w1]; [|reflexivity].
    apply sm_reduce_run. }
  split; [exact Hrun|].
  intros s w'. rewrite Hrun, !bind_run.
  destruct (numbered_py _ _ _ _ w) as [[Summary|e] w1]; [|discriminate].
  rewrite bind_run.
  destruct (frame_getitem Summary "Accuracy" w1) as [[Accuracy|e] w2];
    discriminate.
Qed.
End PValue.

(** ** The correlation dictionary *)

Section CorrelationPolicy.
Context {W D Sr Obj : Type}.
Context {FR : Frames W D Sr Obj} {CO : Correlation W Obj}.

(** The test of line 159 is made on an array of two booleans. *)
Lemma policy_test_raises (correlation : float64 * float64) (w : W) :
  ndarray_bool (array_ne_True (np_isnan correlation)) w =
  (Raise (ValueError "The truth value of an array with more than one element is ambiguous"), w).
Proof. reflexivity. Qed.

(** No pass of the inner loop stores a value. *)
Lemma pc_column_raises (df : Sr) (col : string) (corr : gmap string reported)
    (w : W) :
  exists e w', pc_column df col corr w = (Raise e, w').
Proof.
  unfold pc_column. rewrite bind_run.
  destruct (series_getitem_median df col w) as [[median|e] w1]; [|eauto].
  rewrite bind_run.
  destruct (pearsonr median gradient w1) as [[correlation|e] w2]; [|eauto].
  rewrite bind_run, policy_test_raises. eauto.
Qed.

(** The inner loop returns only if it has no column to visit. *)
Lemma pc_columns_returns (df : Sr) (columns : list string)
    (corr corr' : gmap string reported) (w w' : W) :
  for_each columns (pc_column df) corr w = (Return corr', w') ->
  columns = [] /\ corr' = corr.
Proof.
  destruct columns as [|col columns]; cbn [for_each].
  - rewrite ret_run. intros [= <- <-]. auto.
  - rewrite bind_run.
    destruct (pc_column_raises df col corr w) as (e & w1 & ->). discriminate.
Qed.

Lemma pc_frame_returns (target : string) (df : D)
    (d d' : gmap Z (gmap string reported)) (w w' : W) :
  pc_frame target df d w = (Return d', w') -> d' = <[0%Z := ∅]> d.
Proof.
  unfold pc_frame. rewrite bind_run.
  destruct (frame_pop df target w) as [[s|e] w1]; [|discriminate].
  rewrite bind_run.
  destruct (Series_columns s w1) as [[columns|e] w2]; [|discriminate].
  rewrite bind_run.
  destruct (for_each columns (pc_column s) ∅ w2) as [[corr|e] w3] eqn:E;
    [|discriminate].
  apply pc_columns_returns in E as [_ ->].
  rewrite ret_run. intros [= <- _]. reflexivity.
Qed.

Lemma pc_frames_empty (target : string) (dfs : list D) :
  forall (d d' : gmap Z (gmap string reported)) (w w' : W),
    (forall k corr, d !! k = Some corr -> corr = ∅) ->
    for_each dfs (pc_frame target) d w = (Return d', w') ->
    forall k corr, d' !! k = Some corr -> corr = ∅.
Proof.
  induction dfs as [|df dfs IH]; intros d d' w w' Hd; cbn [for_each].
  - rewrite ret_run. intros [= <- _]. exact Hd.
  - rewrite bind_run.
    destruct (pc_frame target df d w) as [[d1|e] w1] eqn:E; [|discriminate].
    apply pc_frame_returns in E. subst d1. apply IH.
    intros k corr. destruct (decide (k = 0%Z)) as [->|Hne].
    + rewrite lookup_insert_eq. intros [= <-]. reflexivity.
    + rewrite lookup_insert_ne by congruence. apply Hd.
Qed.

(** The first frame that has the target column ends the call. *)
Lemma pc_first_frame (df : D) (dfs : list D) (target : string) (s : Sr)
    (w w' : W) :
  frame_pop df target w = (Return s, w') ->
  series_has_label s "columns" = false ->
  PearsonCorrelation (df :: dfs) target w =
  (Raise (AttributeError "'Series' object has no attribute 'columns'"), w').
Proof.
  intros Hpop Hlabel. unfold PearsonCorrelation. cbn [for_each].
  rewrite bind_run. unfold pc_frame at 1. rewrite bind_run, Hpop, bind_run.
  unfold Series_columns. rewrite Hlabel. reflexivity.
Qed.

(** C6.  [PearsonCorrelation] reports no correlation for any feature, 0.0
    or other.  Every pass of the inner loop raises: [pearsonr] returns a
    pair, and line 159 asks for the truth value of the array of two
    booleans that [np.isnan] makes of it.  If the function returns, every
    dictionary in its result is empty.  And the function does not get to
    the inner loop: for a frame that has the target column, line 153
    binds [df] to the popped column, a Series, and line 154 raises
    AttributeError for its [columns] (the rows being labelled by anything
    but that name). *)
Theorem PearsonCorrelation_reports_no_feature :
  (forall (df : Sr) (col : string) (corr : gmap string reported) (w : W),
     exists e w', pc_column df col corr w = (Raise e, w'))
  /\
  (forall (diffExpDFs : list D) (target : string) (w w' : W) d,
     PearsonCorrelation diffExpDFs target w = (Return d, w') ->
     forall k corr, d !! k = Some corr -> corr = ∅)
  /\
  (forall (df : D) (dfs : list D) (target : string) (s : Sr) (w w' : W),
     frame_pop df target w = (Return s, w') ->
     series_has_label s "columns" = false ->
     PearsonCorrelation (df :: dfs) target w =
     (Raise (AttributeError "'Series' object has no attribute 'columns'"), w')).
Proof.
  split; [exact pc_column_raises|]. split.
  - intros dfs target w w' d Hrun. unfold PearsonCorrelation in Hrun.
    eapply pc_frames_empty; [|exact Hrun].
    intros k corr. rewrite lookup_empty. discriminate.
  - exact pc_first_frame.
Qed.
End CorrelationPolicy.

(** ** The grid sweep *)

Section Sweep.
Context {W Model : Type} {LE : Learning W Model}.

(** The tree-count loop fits once, with 5 trees, and stops at 1505. *)
Lemma tree_loop_run feat data classes rfc (w : W) :
  tree_loop feat data classes rfc w =
  match RandomForestClassifier_fit 5 feat data classes w with
  | (Return m, w') => (Return (1505%Z, Some m), w')
  | (Raise e, w') => (Raise e, w')
  end.
Proof.
  unfold tree_loop.
  change (passes 5 500 1500) with 2%nat.
  rewrite while_step. cbn [fst]. change (5 <=? 500)%Z with true. cbv iota.
  rewrite bind_run.
  destruct (RandomForestClassifier_fit 5 feat data classes w) as [[m|e] w'];
    [|reflexivity].
  rewrite ret_run, while_step. reflexivity.
Qed.

Lemma sweep_passes ncols : passes (ncols - 10) (ncols - 1) 20 = 2%nat.
Proof.
  unfold passes. replace (ncols - 1 - (ncols - 10))%Z with 9%Z by lia.
  reflexivity.
Qed.

(** The feature-count loop makes one pass, at [ncols - 10]. *)
Lemma grid_sweep_run ncols data classes held_data held_classes mk output
    (w : W) :
  grid_sweep ncols data classes held_data held_classes mk output w =
  single_fit ncols data classes held_data held_classes mk output w.
Proof.
  unfold grid_sweep, single_fit. rewrite sweep_passes.
  rewrite (bind_run (while _ _ _ _)), while_step. cbn [sw_feat sw_rfc sw_output].
  replace (ncols - 10 <? ncols - 1)%Z with true by lia.
  rewrite (bind_run (tree_loop _ _ _ _)), tree_loop_run.
  rewrite (bind_run (RandomForestClassifier_fit _ _ _ _)).
  destruct (RandomForestClassifier_fit 5 (ncols - 10) data classes w)
    as [[m|e] w']; [|reflexivity].
  cbn [read_local]. rewrite (bind_run (mret m)), ret_run.
  rewrite !(bind_run (mk _)).
  destruct (mk (rfc_score m held_data held_classes) w') as [[row|e] w2];
    [|reflexivity].
  rewrite !ret_run, while_step. cbn [sw_feat sw_rfc sw_output].
  replace (ncols - 10 + 20 <? ncols - 1)%Z with false by lia.
  reflexivity.
Qed.

End Sweep.

Section Ablation.
Context {W Model Raw Excl : Type}.
Context {LE : Learning W Model} {DL : DataLoading W Raw Excl}.

End Ablation.

(** ** Patterns without special characters *)

Example compile_group_name :
  re_compile "HL-60(TB)" =
  Compiled (Cat (lits Eps (list_ascii_of_string "HL-60"))
                (lits Eps (list_ascii_of_string "TB"))).
Proof. reflexivity. Qed.

Example compile_rejects_open_group : re_compile "HL-60(TB" = Rejected.
Proof. reflexivity. Qed.

Section Regex.

Lemma rmatch_ext (r : regex) : forall s k1 k2,
  (forall t, k1 t = k2 t) -> rmatch r s k1 = rmatch r s k2.
Proof.
  induction r as [|c| |r1 IH1 r2 IH2|r1 IH1 r2 IH2]; intros s k1 k2 Hk; simpl.
  - apply Hk.
  - destruct s as [|a s]; [reflexivity|]. destruct (Ascii.eqb a c); auto.
  - destruct s as [|a s]; [reflexivity|]. destruct (Ascii.eqb a _); auto.
  - apply IH1. intros t. apply IH2. exact Hk.
  - rewrite (IH1 s k1 k2 Hk), (IH2 s k1 k2 Hk). reflexivity.
Qed.

Lemma rmatch_lits (cs : list ascii) : forall r s k,
  rmatch (lits r cs) s k = rmatch r s (fun s' => match_lit cs s' k).
Proof.
  induction cs as [|c cs IH]; intros r s k.
  - reflexivity.
  - unfold lits. simpl fold_left. fold (lits (Cat r (Chr c)) cs).
    rewrite IH. simpl rmatch. apply rmatch_ext. intros t.
    destruct t as [|a t]; reflexivity.
Qed.

Lemma match_lit_prefix (cs : list ascii) : forall s,
  match_lit cs s (fun _ => true) = true <-> exists post, s = cs ++ post.
Proof.
  induction cs as [|c cs IH]; intros s; simpl.
  - split; [intros _; exists s; reflexivity | reflexivity].
  - destruct s as [|a s].
    + split; [discriminate | intros [post H]; discriminate].
    + destruct (Ascii.eqb_spec a c) as [->|Hne].
      * rewrite IH. split; intros [post H]; exists post; congruence.
      * split; [discriminate | intros [post H]; congruence].
Qed.

Lemma re_search_spec (r : regex) : forall s,
  re_search r s = true <->
  exists pre t, s = pre ++ t /\ rmatch r t (fun _ => true) = true.
Proof.
  induction s as [|a s IH]; simpl re_search.
  - rewrite orb_false_r. split.
    + intros H. exists [], []. auto.
    + intros (pre & t & E & H). symmetry in E.
      apply app_eq_nil in E as [-> ->]. exact H.
  - rewrite orb_true_iff, IH. split.
    + intros [H|(pre & t & -> & H)].
      * exists [], (a :: s). auto.
      * exists (a :: pre), t. auto.
    + intros (pre & t & E & H). destruct pre as [|b pre]; simpl in E.
      * left. subst t. exact H.
      * right. injection E as -> ->. exists pre, t. auto.
Qed.

Lemma plain_char (c : ascii) :
  is_special c = false ->
  Ascii.eqb c "("%char = false /\ Ascii.eqb c ")"%char = false /\
  Ascii.eqb c "|"%char = false /\ Ascii.eqb c "."%char = false.
Proof.
  unfold is_special, special_chars. simpl existsb. intros H.
  repeat (apply orb_false_iff in H as [? H]). auto.
Qed.

Lemma re_parse_plain (cs : list ascii) :
  Forall (fun c => is_special c = false) cs ->
  forall top,
    re_parse cs [] top =
    Compiled (frame_close
                {| fr_alts := fr_alts top; fr_seq := lits (fr_seq top) cs |}).
Proof.
  induction 1 as [|c cs Hc _ IH]; intros top.
  - destruct top; reflexivity.
  - simpl re_parse. destruct (plain_char c Hc) as (-> & -> & -> & ->).
    rewrite Hc, IH. reflexivity.
Qed.

Lemma re_compile_plain (p : string) :
  plain p -> re_compile p = Compiled (lits Eps (list_ascii_of_string p)).
Proof.
  intros Hp. unfold re_compile. rewrite re_parse_plain by exact Hp. reflexivity.
Qed.

(** For a pattern without special characters, [re.search] is substring
    containment. *)
Lemma search_plain (p s : string) :
  re_search (lits Eps (list_ascii_of_string p)) (list_ascii_of_string s) = true
  <-> substring p s.
Proof.
  rewrite re_search_spec. unfold substring. split.
  - intros (pre & t & E & H). rewrite rmatch_lits in H. simpl rmatch in H.
    apply match_lit_prefix in H as [post ->]. exists pre, post. exact E.
  - intros (pre & post & E). exists pre, (list_ascii_of_string p ++ post).
    split; [exact E|]. rewrite rmatch_lits. simpl rmatch.
    apply match_lit_prefix. exists post. reflexivity.
Qed.

Lemma substring_refl (p : string) : substring p p.
Proof. exists [], []. rewrite app_nil_r. reflexivity. Qed.
End Regex.

(** ** Holding out one cell line *)

Section HeldOutCellLine.
Context {W Model : Type} {LE : Learning W Model}.

Lemma loco_new_df_plain (df2 : list CellSample) (cell : string) (w : W) :
  plain cell ->
  exists new_df,
    loco_new_df df2 cell w = (Return new_df, w) /\
    forall row, In row new_df <->
                In row df2 /\ ~ substring cell (cs_cell_line row).
Proof.
  intros Hp. unfold loco_new_df. rewrite re_compile_plain by exact Hp.
  eexists. split; [reflexivity|]. intros row.
  rewrite filter_In, negb_true_iff, <- not_true_iff_false, search_plain.
  reflexivity.
Qed.

(** Both partitions are drawn from the working data. *)
Lemma loco_partitions_from_new_df (df2 : list CellSample) (cell : string)
    (w : W) new_df data orig w' :
  split_returns_given_rows LE ->
  oversampler_returns_given_rows LE ->
  loco_new_df df2 cell w = (Return new_df, w) ->
  loco_partitions df2 cell w = (Return (data, orig), w') ->
  forall row c, In (row, c) data \/ In (row, c) orig -> In row new_df.
Proof.
  intros Hsplit Hros Hnew Hrun row c Hin.
  unfold loco_partitions in Hrun. rewrite bind_run, Hnew, bind_run in Hrun.
  destruct (train_test_split new_df (map cs_class new_df) (3 # 10) w)
    as [[[new orig0]|e] w1] eqn:Es; [|discriminate].
  rewrite bind_run in Hrun.
  destruct (RandomOverSampler_fit_sample new w1) as [[data0|e] w2] eqn:Er;
    [|discriminate].
  injection Hrun as <- <- <-.
  assert (Hc : In (row, c) (combine new_df (map cs_class new_df))).
  { apply (Hsplit _ _ _ _ _ _ _ _ _ Es).
    destruct Hin as [Hin|Hin]; [left|right; exact Hin].
    apply (Hros _ _ _ _ _ Er). exact Hin. }
  apply in_combine_l in Hc. exact Hc.
Qed.

(** X12.  For a held-out cell line whose name has no character that is
    special in a regular expression, no row tagged with that cell line is
    in the training or in the evaluation partition of
    [leave_one_cell_out], given that the split and the oversampler
    return only rows they were given. *)
Corollary plain_group_absent_from_partitions (df2 : list CellSample)
    (cell : string) (w : W) data orig w' :
  plain cell ->
  split_returns_given_rows LE ->
  oversampler_returns_given_rows LE ->
  loco_partitions df2 cell w = (Return (data, orig), w') ->
  forall row c, In (row, c) data \/ In (row, c) orig ->
                cs_cell_line row <> cell.
Proof.
  intros Hp Hsplit Hros Hrun row c Hin Heq.
  destruct (loco_new_df_plain df2 cell w Hp) as (new_df & Hnew & Hmem).
  pose proof (loco_partitions_from_new_df _ _ _ _ _ _ _ Hsplit Hros Hnew Hrun
                row c Hin) as Hrow.
  apply Hmem in Hrow as [_ Hno]. apply Hno. rewrite Heq.
  apply substring_refl.
Qed.

(** X13.  Where the exclusion is by containment: for a held-out cell line
    whose name has no character that is special in a regular expression,
    the working data of the group are exactly the rows whose
    ["Cell Line"] value does not contain the name as a substring, and
    every row of the training and of the evaluation partition is such a
    row: rows of another cell line whose name contains the held-out name
    are excluded as well. *)
Theorem plain_name_excluded_by_containment (df2 : list CellSample)
    (cell : string) (w : W) :
  plain cell ->
  split_returns_given_rows LE ->
  oversampler_returns_given_rows LE ->
  (exists new_df,
     loco_new_df df2 cell w = (Return new_df, w) /\
     forall row, In row new_df <->
                 In row df2 /\ ~ substring cell (cs_cell_line row)) /\
  (forall data orig w',
     loco_partitions df2 cell w = (Return (data, orig), w') ->
     forall row c, In (row, c) data \/ In (row, c) orig ->
                   In row df2 /\ ~ substring cell (cs_cell_line row)).
Proof.
  intros Hp Hsplit Hros.
  destruct (loco_new_df_plain df2 cell w Hp) as (new_df & Hnew & Hmem).
  split; [exists new_df; auto|].
  intros data orig w' Hrun row c Hin. apply Hmem.
  eapply loco_partitions_from_new_df; eassumption.
Qed.
End HeldOutCellLine.

(** C10.  The exclusion of line 307 is not by containment for every
    held-out name: it is not so that every row whose ["Cell Line"] value
    contains the name as a substring is removed from the working data.
    With the held-out name ["HL-60(TB)"] the row tagged ["HL-60(TB)"]
    contains the name and stays, because [str.contains] reads the name as
    a regular expression, in which the parentheses form a group. *)
Theorem containment_fails_for_special_names :
  ~ (forall (df2 : list CellSample) (cell : string) (new_df : list CellSample)
            (row : CellSample),
       loco_new_df (W := unit) df2 cell tt = (Return new_df, tt) ->
       In row df2 -> substring cell (cs_cell_line row) -> ~ In row new_df).
Proof.
  intros H.
  apply (H [Script.sample "HL-60(TB)" C0] "HL-60(TB)"%string
           [Script.sample "HL-60(TB)" C0] (Script.sample "HL-60(TB)" C0)).
  - vm_compute. reflexivity.
  - left. reflexivity.
  - apply substring_refl.
  - left. reflexivity.
Qed.

(** C8.  Holding out ["HL-60(TB)"] leaves the rows tagged ["HL-60(TB)"] in
    the data: one is in the training partition and one in the evaluation
    partition of that group. *)
Theorem held_out_rows_stay_in_partitions :
  exists data orig,
    loco_partitions (LE := Script.learning) demo_cells "HL-60(TB)" tt
      = (Return (data, orig), tt) /\
    In (Script.sample "HL-60(TB)" C0, C0) data /\
    In (Script.sample "HL-60(TB)" C2, C2) orig.
Proof.
  do 2 eexists. split; [vm_compute; reflexivity|].
  split; [left; reflexivity | left; reflexivity].
Qed.

(** The whole function on the same rows: one result row per cell line, the
    one of ["HL-60(TB)"] included. *)
Example leave_one_cell_out_demo :
  leave_one_cell_out (LE := Script.learning)
    {| cf_columns := Script.columns12; cf_samples := demo_cells |}
    "BRCA" "EXPRESSION" tt =
  (Return [{| ab_Cancer := "BRCA"; ab_Target := "EXPRESSION";
              ab_HeldOut := "HL-60(TB)"; ab_MeanAccuracy := literal 1 |};
           {| ab_Cancer := "BRCA"; ab_Target := "EXPRESSION";
              ab_HeldOut := "K-562"; ab_MeanAccuracy := literal 1 |}], tt).
Proof. vm_compute. reflexivity. Qed.

(** ** The statements on concrete data *)

Lemma Script_split_returns_given_rows : split_returns_given_rows Script.learning.
Proof.
  intros A B rows classes size w new orig w' H x Hx.
  cbn in H. injection H as <- <- _.
  rewrite <- (firstn_skipn (length (combine rows classes) * 7 / 10)
                (combine rows classes)).
  apply in_or_app. exact Hx.
Qed.

Lemma Script_oversampler_returns_given_rows :
  oversampler_returns_given_rows Script.learning.
Proof.
  intros A rows w data w' H x Hx. cbn in H. injection H as <- _. exact Hx.
Qed.

Lemma plain_SK_MEL_2 : plain "SK-MEL-2".
Proof. unfold plain. simpl. repeat constructor. Qed.

Lemma normalized_rows_witness :
  exists matrix normalizedMatrix,
    computeConfusionMatrix (DP := Script.dp) (CL := Script.clf)
      "BRCA.csv" "EXPRESSION" tt 0 demo_script
      = (Return (matrix, normalizedMatrix), tl demo_script) /\
    (exists q0 q1 q2 : Q,
       normalizedMatrix !! 0%nat = Some [Finite q0; Finite q1; Finite q2] /\
       (Qabs (q0 + q1 + q2 - 1) <= row_tolerance)%Q) /\
    normalizedMatrix !! 2%nat = Some [NaN; NaN; NaN].
Proof.
  do 2 eexists. split; [vm_compute; reflexivity|].
  split.
  - eapply (normalized_rows (DP := Script.dp) (CL := Script.clf)
              "BRCA.csv" "EXPRESSION" tt 0 demo_script).
    + vm_compute. reflexivity.
    + reflexivity.
    + discriminate.
  - eapply (normalized_rows (DP := Script.dp) (CL := Script.clf)
              "BRCA.csv" "EXPRESSION" tt 0 demo_script).
    + vm_compute. reflexivity.
    + reflexivity.
    + reflexivity.
Defined.

(** [Summarize] with scripted collaborators: the two trials of
    [iterations = 1] run, and line 116 raises. *)
Example Summarize_demo :
  Summarize (DP := Script.dp) (CL := Script.clf) (SK := Script.metrics)
    (PD := Script.pandas) (ST := Script.stats (literal (1 # 10 ^ 60)))
    "BRCA.csv" "EXPRESSION" tt 1 demo_script
  = (Raise (ValueError "No axis of that number for object type Series"), []).
Proof. vm_compute. reflexivity. Qed.

Lemma PearsonCorrelation_reports_no_feature_witness :
  PearsonCorrelation (FR := Script.frames) (CO := Script.correlation)
    [demo_frame] "EXPRESSION" tt
  = (Raise (AttributeError "'Series' object has no attribute 'columns'"), tt).
Proof.
  apply (proj2 (proj2 (PearsonCorrelation_reports_no_feature
                         (FR := Script.frames) (CO := Script.correlation)))
           demo_frame [] "EXPRESSION"%string [] tt tt);
    reflexivity.
Defined.

Lemma plain_name_excluded_by_containment_witness :
  plain "SK-MEL-2" /\
  exists data orig,
    loco_partitions (LE := Script.learning) melanoma_cells "SK-MEL-2" tt
      = (Return (data, orig), tt) /\
    forall row c, In (row, c) data \/ In (row, c) orig ->
                  In row melanoma_cells /\
                  ~ substring "SK-MEL-2" (cs_cell_line row).
Proof.
  split; [exact plain_SK_MEL_2|].
  do 2 eexists. split; [vm_compute; reflexivity|].
  eapply (proj2 (plain_name_excluded_by_containment (LE := Script.learning)
                  melanoma_cells "SK-MEL-2" tt plain_SK_MEL_2
                  Script_split_returns_given_rows
                  Script_oversampler_returns_given_rows)).
  vm_compute. reflexivity.
Defined.

(* ===================================================================== *)
(** * Part III: further properties of the code                            *)
(* ===================================================================== *)

(** ** More on [computeConfusionMatrix] *)

Section ConfusionMatrixMore.
Context {W X Excl Model : Type}.
Context {DP : DataPreparation W X Excl} {CL : Classifier W X Model}.
Variables (filename target : string) (exclude : Excl).

(** X1.  With a negative [iterations] no trial is run and
    [computeConfusionMatrix] raises [UnboundLocalError] for [matrix] at
    line 47: the loop never binds it. *)
Theorem negative_iterations_leave_matrix_unbound (iterations : Z) (w : W) :
  (iterations < 0)%Z ->
  computeConfusionMatrix filename target exclude iterations w =
  (Raise (UnboundLocalError "matrix"), w).
Proof.
  intros Hneg. unfold computeConfusionMatrix.
  rewrite bind_run, cm_loop_negative by exact Hneg. reflexivity.
Qed.



(** X4.  An exception of a trial is not caught: if the first [k] trials
    return and the next one raises [e], with [k <= N], the call with
    [iterations = N] raises [e]; no further trial is run and no matrix is
    returned. *)
Theorem trial_exception_propagates (N k : nat) w ts wk e w' :
  (k <= N)%nat ->
  repeat_py k (cm_trial filename target exclude) w = (Return ts, wk) ->
  cm_trial filename target exclude wk = (Raise e, w') ->
  computeConfusionMatrix filename target exclude (Z.of_nat N) w = (Raise e, w').
Proof.
  intros Hk Hts He.
  assert (Hrep : forall n, (k < n)%nat ->
            repeat_py n (cm_trial filename target exclude) w = (Raise e, w')).
  { clear Hk. revert w ts Hts.
    induction k as [|k IH]; intros w ts Hts n Hn;
      (destruct n as [|n]; [lia|]); cbn [repeat_py] in *.
    - injection Hts as <- <-. rewrite bind_run, He. reflexivity.
    - rewrite bind_run in Hts |- *.
      destruct (cm_trial filename target exclude w) as [[t|e0] w1];
        [|discriminate].
      rewrite bind_run in Hts |- *.
      destruct (repeat_py k (cm_trial filename target exclude) w1)
        as [[l|e0] w2] eqn:E; [|discriminate].
      injection Hts as <- <-.
      rewrite (IH w1 l E n) by lia. reflexivity. }
  unfold computeConfusionMatrix. rewrite bind_run, cm_loop_run.
  rewrite Hrep by lia. reflexivity.
Qed.
End ConfusionMatrixMore.

(** ** [computeAUROC] *)

Section AurocFacts.
Context {W X Model Bin Raw Excl : Type}.
Context {DL : DataLoading W Raw Excl} {AT : AurocTools W X Model Bin}.

(** X5.  [computeAUROC] returns for no input.  Lines 187 and 189 bind
    [labels] to a set, and line 196 subscripts it: once the global [targ]
    is read and the data are loaded, the call raises TypeError, before
    anything is binarized, trained or scored. *)
Theorem computeAUROC_raises (targ : option string) (filename target : string)
    (exclude : Excl) (w : W) :
  computeAUROC targ filename target exclude w =
    (_ ← read_global (A := string) "targ" targ;
     _ ← load_data filename;
     raise (TypeError "'set' object is not subscriptable")) w
  /\
  forall r w', computeAUROC targ filename target exclude w <> (Return r, w').
Proof.
  assert (Hrun :
    computeAUROC targ filename target exclude w =
    (_ ← read_global (A := string) "targ" targ;
     _ ← load_data filename;
     raise (TypeError "'set' object is not subscriptable")) w).
  { unfold computeAUROC. rewrite !bind_run.
    destruct (read_global "targ" targ w) as [[t|e] w1]; [|reflexivity].
    rewrite !bind_run.
    destruct (load_data filename w1) as [[[model cancer]|e] w2]; [|reflexivity].
    destruct (prune_targets (label_encode model) target exclude)
      as [prune_models cls].
    reflexivity. }
  split; [exact Hrun|].
  intros r w'. rewrite Hrun, !bind_run.
  destruct (read_global "targ" targ w) as [[t|e] w1]; [|discriminate].
  rewrite bind_run.
  destruct (load_data filename w1) as [[mc|e] w2]; discriminate.
Qed.
End AurocFacts.

(** ** [randomForestClassification] *)

Section ForestFacts.
Context {W X Model : Type} {FT : ForestTools W X Model}.
Variables (Xtrain : X) (Ytrain : list label).

Lemma forest_while_run (n : nat) : forall fuel (a : Z) (rfc : option Model) (w : W),
  (n < fuel)%nat ->
  (a + Z.of_nat n = 129)%Z ->
  while fuel (fun st => (fl_initialTrees st <=? 128)%Z)
    (fun st =>
       RFC ← forest_fit (fl_initialTrees st) Xtrain Ytrain;
       _ ← tqdm_update 1;
       mret {| fl_initialTrees := fl_initialTrees st + 1; fl_RFC := Some RFC |})
    {| fl_initialTrees := a; fl_RFC := rfc |} w =
  match fit_each (range_from a n) Xtrain Ytrain rfc w with
  | (Return r, w') => (Return {| fl_initialTrees := 129; fl_RFC := r |}, w')
  | (Raise e, w') => (Raise e, w')
  end.
Proof.
  unfold fit_each.
  induction n as [|n IH]; intros fuel a rfc w Hf Ha;
    (destruct fuel as [|fuel]; [lia|]); rewrite while_step;
    cbn [fl_initialTrees fl_RFC range_from for_each].
  - replace (a <=? 128)%Z with false by lia. rewrite ret_run.
    replace a with 129%Z by lia. reflexivity.
  - replace (a <=? 128)%Z with true by lia. rewrite !bind_run.
    destruct (forest_fit a Xtrain Ytrain w) as [[RFC|e] w1]; [|reflexivity].
    rewrite !bind_run.
    destruct (tqdm_update 1 w1) as [[u|e] w2]; [|reflexivity].
    rewrite !ret_run. apply IH; lia.
Qed.

Lemma fit_each_app (l : list Z) (n : Z) (rfc : option Model) (w : W) :
  fit_each (l ++ [n]) Xtrain Ytrain rfc w =
  (_ ← fit_each l Xtrain Ytrain rfc;
   RFC ← forest_fit n Xtrain Ytrain;
   _ ← tqdm_update 1;
   mret (Some RFC)) w.
Proof.
  unfold fit_each. revert rfc w.
  induction l as [|a l IH]; intros rfc w; cbn [app for_each].
  - rewrite !bind_run, !ret_run, ?bind_run.
    destruct (forest_fit n Xtrain Ytrain w) as [[RFC|e] w1]; [|reflexivity].
    rewrite !bind_run.
    destruct (tqdm_update 1 w1) as [[u|e] w2]; reflexivity.
  - rewrite !bind_run.
    destruct (forest_fit a Xtrain Ytrain w) as [[RFC|e] w1]; [|reflexivity].
    rewrite !bind_run.
    destruct (tqdm_update 1 w1) as [[u|e] w2]; [|reflexivity].
    rewrite !ret_run, IH, !bind_run. reflexivity.
Qed.

(** X6.  [randomForestClassification] seeds numpy with 0, fits a forest
    for every size from 64 to 127 and drops each of them, then fits the
    forest of 128 trees; that last forest is the one that predicts, is
    scored and cross-validated, and is returned.  The progress bar,
    created for 64 steps, is advanced 65 times. *)
Theorem forest_fits_every_size_and_keeps_the_last (Xtest : X)
    (Ytest : list label) (w : W) :
  randomForestClassification Xtrain Ytrain Xtest Ytest w =
  (_ ← np_random_seed 0;
   _ ← print "Starting to train random forest model";
   _ ← tqdm_new 64;
   _ ← fit_each (range_from 64 64) Xtrain Ytrain None;
   RFC ← forest_fit 128 Xtrain Ytrain;
   _ ← tqdm_update 1;
   _ ← tqdm_close;
   scores ← cross_val_score RFC Xtest Ytest 10;
   _ ← print "Finished training random forest";
   mret (RFC, forest_predict RFC Xtest, forest_score RFC Xtest Ytest,
         array_mean scores)) w.
Proof.
  unfold randomForestClassification. rewrite !bind_run.
  destruct (np_random_seed 0 w) as [[u0|e] w0]; [|reflexivity].
  rewrite !bind_run.
  destruct (print "Starting to train random forest model" w0) as [[u1|e] w1];
    [|reflexivity].
  rewrite !bind_run.
  destruct (tqdm_new 64 w1) as [[u2|e] w2]; [|reflexivity].
  rewrite (bind_run (while _ _ _ _)).
  change (passes 64 128 1) with 66%nat.
  rewrite (forest_while_run 65) by lia.
  change (range_from 64 65) with (range_from 64 64 ++ [128%Z]).
  rewrite fit_each_app, !bind_run.
  destruct (fit_each (range_from 64 64) Xtrain Ytrain None w2) as [[r|e] w3];
    [|reflexivity].
  rewrite !bind_run.
  destruct (forest_fit 128 Xtrain Ytrain w3) as [[RFC|e] w4]; [|reflexivity].
  rewrite !bind_run.
  destruct (tqdm_update 1 w4) as [[u3|e] w5]; [|reflexivity].
  rewrite !ret_run. cbn [fl_RFC]. rewrite !bind_run.
  destruct (tqdm_close w5) as [[u4|e] w6]; [|reflexivity].
  cbn [read_local]. rewrite !bind_run, ret_run. reflexivity.
Qed.
End ForestFacts.

(** ** The tables of the ablation functions *)

Lemma unique_In (l : list string) (x : string) : In x (unique l) <-> In x l.
Proof.
  induction l as [|a l IH]; simpl; [reflexivity|].
  rewrite filter_In, IH, negb_true_iff, String.eqb_neq.
  destruct (string_dec a x) as [->|Hne]; [tauto|].
  split; [tauto|]. intros [H|H]; [tauto|]. right. split; [exact H|]. congruence.
Qed.

Lemma unique_NoDup (l : list string) : List.NoDup (unique l).
Proof.
  induction l as [|a l IH]; simpl; constructor.
  - rewrite filter_In, negb_true_iff, String.eqb_neq. tauto.
  - apply List.NoDup_filter. exact IH.
Qed.

Section AblationTables.
Context {W Model Raw Excl : Type}.
Context {LE : Learning W Model} {DL : DataLoading W Raw Excl}.

Lemma single_fit_returns ncols data classes held_data held_classes
    (mk : float64 -> Py W AblationRow) output (w : W) output' w' :
  single_fit ncols data classes held_data held_classes mk output w
    = (Return output', w') ->
  exists m w1 row,
    RandomForestClassifier_fit 5 (ncols - 10) data classes w = (Return m, w1) /\
    mk (rfc_score m held_data held_classes) w1 = (Return row, w') /\
    output' = output ++ [row].
Proof.
  unfold single_fit. rewrite bind_run.
  destruct (RandomForestClassifier_fit 5 (ncols - 10) data classes w)
    as [[m|e] w1]; [|discriminate].
  rewrite bind_run.
  destruct (mk (rfc_score m held_data held_classes) w1) as [[row|e] w2] eqn:E;
    [|discriminate].
  rewrite ret_run. intros [= <- <-]. eauto 6.
Qed.

Lemma lofo_group_returns canc targ classes lofo df output (w : W) output' w' :
  lofo_group canc targ classes (lofo, df) output w = (Return output', w') ->
  exists row,
    output' = output ++ [row] /\ ab_HeldOut row = lofo /\
    canc = Some (ab_Cancer row) /\ targ = Some (ab_Target row).
Proof.
  unfold lofo_group. rewrite bind_run.
  destruct (train_test_split (df_rows df) classes (3 # 10) w)
    as [[[new orig]|e] w1]; [|discriminate].
  rewrite grid_sweep_run. intros H.
  apply single_fit_returns in H as (m & w2 & row & _ & Hmk & ->).
  exists row. split; [reflexivity|].
  destruct canc as [c|]; [|discriminate Hmk].
  destruct targ as [t|]; [|discriminate Hmk].
  cbn in Hmk. injection Hmk as <- _. auto.
Qed.

Lemma lofo_groups_return canc targ classes
    (dfs : list (string * DataFrame)) :
  forall output (w : W) output' w',
    for_each dfs (lofo_group canc targ classes) output w = (Return output', w') ->
    exists rows,
      output' = output ++ rows /\
      map ab_HeldOut rows = map fst dfs /\
      Forall (fun row => canc = Some (ab_Cancer row) /\
                         targ = Some (ab_Target row)) rows.
Proof.
  induction dfs as [|[lofo df] dfs IH]; intros output w output' w';
    cbn [for_each].
  - rewrite ret_run. intros [= <- _]. exists []. rewrite app_nil_r. auto.
  - rewrite bind_run.
    destruct (lofo_group canc targ classes (lofo, df) output w)
      as [[out1|e] w1] eqn:E; [|discriminate].
    apply lofo_group_returns in E as (row & -> & Hname & Hc & Ht).
    intros H. apply IH in H as (rows & -> & Hnames & Hall).
    exists (row :: rows). rewrite <- app_assoc. split; [reflexivity|].
    split; [cbn [map fst]; congruence|].
    constructor; auto.
Qed.

Lemma lofo_frames_names (df : DataFrame) dfs :
  lofo_frames df = Return dfs -> map fst dfs = lofo_names.
Proof.
  unfold lofo_frames. destruct (nth_error (df_columns df) 134); [|discriminate].
  intros [= <-]. reflexivity.
Qed.

(** X7.  When [leave_one_feat_out] returns, its table has five rows, one
    for each feature set, in the order and under the names of lines
    239-252; every row carries the values of the globals [canc] and
    [targ], which therefore are bound: with either of them unbound the
    function returns no table. *)
Theorem feat_out_returns_five_rows (canc targ : option string)
    (filename target : string) (exclude : Excl) (w : W) rows w' :
  leave_one_feat_out canc targ filename target exclude w = (Return rows, w') ->
  map ab_HeldOut rows = lofo_names /\
  Forall (fun row => canc = Some (ab_Cancer row) /\
                     targ = Some (ab_Target row)) rows /\
  canc <> None /\ targ <> None.
Proof.
  unfold leave_one_feat_out. rewrite bind_run.
  destruct (load_data filename w) as [[[model cancer]|e] w1]; [|discriminate].
  destruct (prune_targets (label_encode model) target exclude)
    as [prune_models classes].
  destruct (lofo_frames _) as [dfs|e] eqn:Ef; [|discriminate].
  apply lofo_frames_names in Ef. intros H.
  apply lofo_groups_return in H as (rows' & -> & Hnames & Hall).
  cbn [app] in *. rewrite Ef in Hnames.
  split; [exact Hnames|]. split; [exact Hall|].
  destruct rows' as [|row rows']; [discriminate Hnames|].
  apply Forall_cons in Hall as [[-> ->] _]. split; discriminate.
Qed.

Lemma loco_group_returns canc targ ncols df2 cell output (w : W) output' w' :
  loco_group canc targ ncols df2 cell output w = (Return output', w') ->
  exists acc,
    output' = output ++ [{| ab_Cancer := canc; ab_Target := targ;
                            ab_HeldOut := cell; ab_MeanAccuracy := acc |}].
Proof.
  unfold loco_group. rewrite bind_run.
  destruct (loco_partitions df2 cell w) as [[[data orig]|e] w1]; [|discriminate].
  rewrite grid_sweep_run. intros H.
  apply single_fit_returns in H as (m & w2 & row & _ & Hmk & ->).
  rewrite ret_run in Hmk. injection Hmk as <- _. eauto.
Qed.

Lemma loco_groups_return canc targ ncols df2 (groups : list string) :
  forall output (w : W) output' w',
    for_each groups (loco_group canc targ ncols df2) output w
      = (Return output', w') ->
    exists rows,
      output' = output ++ rows /\
      map ab_HeldOut rows = groups /\
      Forall (fun row => ab_Cancer row = canc /\ ab_Target row = targ) rows.
Proof.
  induction groups as [|cell groups IH]; intros output w output' w';
    cbn [for_each].
  - rewrite ret_run. intros [= <- _]. exists []. rewrite app_nil_r. auto.
  - rewrite bind_run.
    destruct (loco_group canc targ ncols df2 cell output w)
      as [[out1|e] w1] eqn:E; [|discriminate].
    apply loco_group_returns in E as (acc & ->).
    intros H. apply IH in H as (rows & -> & Hnames & Hall).
    eexists (_ :: rows). rewrite <- app_assoc. split; [reflexivity|].
    split; [cbn [map ab_HeldOut]; congruence|].
    constructor; auto.
Qed.

(** X8.  When [leave_one_cell_out] returns, its table has exactly one row
    for every distinct value of the ["Cell Line"] column, in the order of
    first appearance, no cell line twice, and every row carries the
    arguments [canc] and [targ]. *)
Theorem cell_out_returns_one_row_per_cell_line (df2 : CellFrame)
    (canc targ : string) (w : W) rows w' :
  leave_one_cell_out df2 canc targ w = (Return rows, w') ->
  map ab_HeldOut rows = unique (map cs_cell_line (loco_scaled df2)) /\
  List.NoDup (map ab_HeldOut rows) /\
  (forall cell, In cell (map ab_HeldOut rows) <->
                In cell (map cs_cell_line (loco_scaled df2))) /\
  Forall (fun row => ab_Cancer row = canc /\ ab_Target row = targ) rows.
Proof.
  unfold leave_one_cell_out. intros H.
  apply loco_groups_return in H as (rows' & -> & Hnames & Hall).
  cbn [app]. rewrite Hnames.
  split; [reflexivity|]. split; [apply unique_NoDup|].
  split; [intros cell; apply unique_In | exact Hall].
Qed.

(** X9.  A cell line whose name is not a regular expression stops
    [leave_one_cell_out]: if [re.compile] rejects the name of the first
    cell line (an unbalanced parenthesis, say), the call raises
    [re.error] at line 307, before any split or fit. *)
Theorem cell_out_rejects_names_that_are_no_patterns (df2 : CellFrame)
    (canc targ : string) (w : W) cell rest :
  unique (map cs_cell_line (loco_scaled df2)) = cell :: rest ->
  re_compile cell = Rejected ->
  leave_one_cell_out df2 canc targ w = (Raise re_error, w).
Proof.
  intros Hgroups Hrej. unfold leave_one_cell_out. rewrite Hgroups.
  cbn [for_each]. rewrite bind_run.
  unfold loco_group at 1. rewrite bind_run.
  unfold loco_partitions at 1. rewrite bind_run.
  unfold loco_new_df. rewrite Hrej. reflexivity.
Qed.
End AblationTables.

(** ** The labels of [make_surv] *)

Lemma float_lt_le (x y : float64) :
  isnan x = false -> isnan y = false -> float_lt x y = negb (float_le y x).
Proof.
  destruct x as [| | |a], y as [| | |b]; simpl; try discriminate; reflexivity.
Qed.

Lemma set_SURV_twice (u v : string) (r : SurvRow) :
  set_SURV v (set_SURV u r) = set_SURV v r.
Proof. destruct r; reflexivity. Qed.

(** One masked assignment on rows that carry the labels [lab]; the mask
    does not read the label. *)
Lemma loc_assign_relabel (mask : SurvRow -> bool) (v : string)
    (lab : SurvRow -> string) (df : list SurvRow) :
  (forall u r, mask (set_SURV u r) = mask r) ->
  loc_assign mask v (map (fun r => set_SURV (lab r) r) df) =
  map (fun r => set_SURV (if mask r then v else lab r) r) df.
Proof.
  intros Hmask. unfold loc_assign. rewrite map_map. apply map_ext. intros r.
  rewrite Hmask. destruct (mask r); [apply set_SURV_twice | reflexivity].
Qed.

(** X10.  The five assignments of [make_surv] (lines 32-36) label every
    row by itself, by the decision list [surv_label] of its hazard ratio
    and its Cox p-value; the other columns and the order of the rows stay
    as they are. *)
Theorem surv_labels_by_decision_list (cox hr_up hr_low : float64)
    (df : list SurvRow) :
  make_surv_labels cox hr_up hr_low df =
  map (fun r => set_SURV (surv_label cox hr_up hr_low (sv_HR r) (sv_COX r)) r) df.
Proof.
  unfold make_surv_labels. cbv zeta.
  change (map (set_SURV "") df)
    with (map (fun r => set_SURV ((fun _ => ""%string) r) r) df).
  do 5 (rewrite loc_assign_relabel by (intros u [id ct hr p s]; reflexivity)).
  reflexivity.
Qed.

(** X11.  What "everything else" gets.  With thresholds that are numbers, a
    row whose hazard ratio and p-value are numbers is labelled UPREG,
    DOWNREG or NEUTRAL; a row whose hazard ratio is NaN keeps the empty
    label of line 29, and is not NEUTRAL. *)
Theorem surv_rows_labelled_unless_nan (cox hr_up hr_low : float64)
    (df : list SurvRow) (r : SurvRow) :
  isnan cox = false -> isnan hr_up = false -> isnan hr_low = false ->
  In r (make_surv_labels cox hr_up hr_low df) ->
  (isnan (sv_HR r) = true -> sv_SURV r = ""%string) /\
  (isnan (sv_HR r) = false -> isnan (sv_COX r) = false ->
   sv_SURV r = "UPREG"%string \/ sv_SURV r = "DOWNREG"%string \/
   sv_SURV r = "NEUTRAL"%string).
Proof.
  intros Hcox Hup Hlow Hin. rewrite surv_labels_by_decision_list in Hin.
  apply in_map_iff in Hin as ([id ct hr p s] & <- & _).
  unfold set_SURV, surv_label. cbn [sv_ID_NAME sv_CANCER_TYPE sv_HR sv_COX sv_SURV].
  split.
  - intros Hnan. destruct hr; try discriminate Hnan. destruct hr_up; reflexivity.
  - intros Hhr Hp. unfold float_ge, float_gt.
    rewrite (float_lt_le hr hr_up), (float_lt_le hr_low hr),
      (float_lt_le cox p) by assumption.
    destruct (float_le hr_up hr), (float_le hr hr_low), (float_le p cox);
      cbn; auto.
Qed.

(** ** The further statements on concrete data *)

Lemma negative_iterations_leave_matrix_unbound_witness :
  computeConfusionMatrix (DP := Script.dp) (CL := Script.clf)
    "BRCA.csv" "EXPRESSION" tt (-1) demo_script
  = (Raise (UnboundLocalError "matrix"), demo_script).
Proof.
  apply (negative_iterations_leave_matrix_unbound (DP := Script.dp)
           (CL := Script.clf) "BRCA.csv" "EXPRESSION" tt (-1) demo_script).
  lia.
Defined.



Lemma trial_exception_propagates_witness :
  computeConfusionMatrix (DP := Script.dp) (CL := Script.clf)
    "BRCA.csv" "EXPRESSION" tt 2 demo_script
  = (Raise (LibraryError "no more data"), []).
Proof.
  apply (trial_exception_propagates (DP := Script.dp) (CL := Script.clf)
           "BRCA.csv" "EXPRESSION" tt 2 2 demo_script
           [([C0; C0; C1], [C0; C1; C2]); ([C0; C1; C1], [C0; C1; C2])] []).
  - lia.
  - vm_compute. reflexivity.
  - vm_compute. reflexivity.
Defined.

Lemma feat_out_returns_five_rows_witness :
  exists rows,
    leave_one_feat_out
      (LE := Script.learning)
      (DL := Script.loading demo_columns demo_rows [C0; C1; C2; C0])
      (Some "BRCA"%string) (Some "EXPRESSION"%string)
      "BRCA.csv" "EXPRESSION" tt tt
    = (Return rows, tt) /\
    map ab_HeldOut rows = lofo_names.
Proof.
  eexists. split; [vm_compute; reflexivity|].
  eapply (feat_out_returns_five_rows
            (LE := Script.learning)
            (DL := Script.loading demo_columns demo_rows [C0; C1; C2; C0])
            (Some "BRCA"%string) (Some "EXPRESSION"%string)
            "BRCA.csv" "EXPRESSION" tt tt).
  vm_compute. reflexivity.
Defined.

Lemma cell_out_returns_one_row_per_cell_line_witness :
  exists rows,
    leave_one_cell_out (LE := Script.learning)
      {| cf_columns := Script.columns12; cf_samples := melanoma_cells |}
      "SKCM" "EXPRESSION" tt
    = (Return rows, tt) /\
    map ab_HeldOut rows = ["SK-MEL-2"; "SK-MEL-28"; "K-562"; "SK-MEL-5"]%string.
Proof.
  eexists. split; [vm_compute; reflexivity|].
  apply (proj1 (cell_out_returns_one_row_per_cell_line (LE := Script.learning)
                  {| cf_columns := Script.columns12; cf_samples := melanoma_cells |}
                  "SKCM" "EXPRESSION" tt _ tt
                  ltac:(vm_compute; reflexivity))).
Defined.

Lemma cell_out_rejects_names_that_are_no_patterns_witness :
  leave_one_cell_out (LE := Script.learning)
    {| cf_columns := Script.columns12;
       cf_samples := [Script.sample "HL-60(TB" C0; Script.sample "K-562" C1] |}
    "LEUK" "EXPRESSION" tt
  = (Raise re_error, tt).
Proof.
  apply (cell_out_rejects_names_that_are_no_patterns (LE := Script.learning)
           {| cf_columns := Script.columns12;
              cf_samples := [Script.sample "HL-60(TB" C0; Script.sample "K-562" C1] |}
           "LEUK" "EXPRESSION" tt "HL-60(TB"%string ["K-562"%string]);
    reflexivity.
Defined.

Lemma plain_group_absent_from_partitions_witness :
  exists data orig,
    loco_partitions (LE := Script.learning) melanoma_cells "K-562" tt
      = (Return (data, orig), tt) /\
    forall row c, In (row, c) data \/ In (row, c) orig ->
                  cs_cell_line row <> "K-562"%string.
Proof.
  do 2 eexists. split; [vm_compute; reflexivity|].
  apply (plain_group_absent_from_partitions (LE := Script.learning)
           melanoma_cells "K-562" tt _ _ tt).
  - unfold plain. simpl. repeat constructor.
  - exact Script_split_returns_given_rows.
  - exact Script_oversampler_returns_given_rows.
  - vm_compute. reflexivity.
Defined.

Lemma surv_rows_labelled_unless_nan_witness :
  In (set_SURV "" demo_surv_row)
    (make_surv_labels (literal (5 # 100)) (literal 2) (literal (1 # 2))
       [demo_surv_row]) /\
  sv_SURV (set_SURV "" demo_surv_row) = ""%string.
Proof.
  split; [left; reflexivity|].
  apply (proj1 (surv_rows_labelled_unless_nan
                  (literal (5 # 100)) (literal 2) (literal (1 # 2))
                  [demo_surv_row] (set_SURV "" demo_surv_row)
                  eq_refl eq_refl eq_refl (or_introl eq_refl))).
  reflexivity.
Defined.
